(** * TileSight hardware abstraction: compute units, architectures, modes

    A shallow embedding of [tilelang/tools/tilesight]: the [ComputeUnit] and
    [Arch] classes of [arch/base_arch.py], the concrete architectures
    [H100_PCIE], [H100_SXM] and [MI250X], and the device factory of
    [utils/device_factory.py].

    Python [int] is [Z]; Python [float] is the kernel's binary64 [float];
    an [int] that meets a [float] in a product is first converted, rounding to
    nearest-even, and the conversion raises [OverflowError] when the integer
    has no finite double.  Methods that may raise return a [result]. *)

From Stdlib Require Import ZArith Lia Bool List Floats.
From stdpp Require Import base option strings gmap.

Set Warnings "-inexact-float".

Local Open Scope string_scope.
Local Open Scope Z_scope.

(** ** Exceptions and results *)

Inductive exn : Type :=
  | AttributeError (attr : string)
  | OverflowError
  | ValueError (msg : string)
  | NotImplementedError (msg : string).

Inductive result (A : Type) : Type :=
  | Ok (a : A)
  | Raise (e : exn).

Arguments Ok {A} a.
Arguments Raise {A} e.

Definition bind {A B : Type} (m : result A) (k : A -> result B) : result B :=
  match m with
  | Ok a => k a
  | Raise e => Raise e
  end.

Notation "x <- m ;; k" := (bind m (fun x => k))
  (at level 100, m at next level, right associativity).

Definition returns {A : Type} (m : result A) : Prop := exists a, m = Ok a.

(** ** Python numbers *)

Module Py.

(** The correctly rounded double of an integer, as a specification float:
    infinite when the integer is beyond the doubles. *)
Definition Z2SF (z : Z) : spec_float := binary_normalize prec emax z 0 false.

(** The double nearest to [z] (infinite beyond the doubles).  Integer
    literals, which all have doubles, are converted with it directly. *)
Definition float_of_Z (z : Z) : float := SF2Prim (Z2SF z).

Definition fits_double (z : Z) : bool :=
  match Z2SF z with
  | S754_infinity _ => false
  | _ => true
  end.

(** The conversion CPython applies to the [int] operand of [int * float]
    ([PyLong_AsDouble]): "int too large to convert to float". *)
Definition int_to_float (z : Z) : result float :=
  if fits_double z then Ok (float_of_Z z) else Raise OverflowError.

(** [z * f] and [f * z] for [z : int], [f : float]. *)
Definition int_mul_float (z : Z) (f : float) : result float :=
  x <- int_to_float z ;; Ok (x * f)%float.

Definition float_mul_int (f : float) (z : Z) : result float :=
  x <- int_to_float z ;; Ok (f * x)%float.

(** [math.prod(l)] over integers: left to right from the start value 1. *)
Definition prod (l : list Z) : Z := fold_left Z.mul l 1.

(** [f <= 0] and [f > 0] for a float against the integer literal 0. *)
Definition float_le_0 (f : float) : bool := (f <=? 0)%float.
Definition float_gt_0 (f : float) : bool := (0 <? f)%float.

End Py.

(** ** ComputeUnit *)

Record ComputeUnit : Type := mkComputeUnit {
  unit_type : string;
  dtype : string;
  instances : Z;
  shape : list Z;
  ops_per_element : Z
}.

(** [ComputeUnit.calculate_flops(self, sm_count, freq_hz)]. *)
Definition calculate_flops (self : ComputeUnit) (sm_count : Z) (freq_hz : float)
  : result float :=
  if (sm_count <=? 0) || Py.float_le_0 freq_hz then Ok 0%float
  else
    let shape_product :=
      match shape self with
      | [] => 1
      | _ :: _ => Py.prod (shape self)
      end in
    let ops_per_sm_per_cycle := instances self * shape_product * ops_per_element self in
    total_flops_per_second <- Py.int_mul_float (ops_per_sm_per_cycle * sm_count) freq_hz ;;
    Ok total_flops_per_second.

(** ** Arch

    The attributes of an [Arch] instance.  The first 24 are the ones
    [Arch.__init__] creates.  The rest are created by assignment in the
    subclasses or by [compute_flops]; for them [None] is "the instance has no
    such attribute" ([hasattr] is false).  In the three unit slots of the base
    class [None] is Python's [None]. *)
#[projections(primitive)]
Record Arch : Type := mkArch {
  core : option string;
  sm_count : Z;
  freq : float;
  ddr_bandwidth : float;
  ddr_capacity : Z;
  l2_bandwidth : float;
  l2_capacity : Z;
  l2_partitions : Z;
  sm_sub_partitions : Z;
  l1_smem_throughput_per_cycle : Z;
  configurable_smem_capacity : Z;
  register_capacity_per_sm : Z;
  fp16_tensor_core_unit : option ComputeUnit;
  fp32_cuda_core_unit : option ComputeUnit;
  sfu_unit : option ComputeUnit;
  fp16_tensor_flops : float;
  fp32_cuda_core_flops : float;
  sfu_flops : float;
  smem_bandwidth : float;
  register_bandwidth : float;
  ddr_max_util : float;
  l2_max_util : float;
  l1_max_util : float;
  compute_max_util : float;
  fp8_tensor_core_unit : option ComputeUnit;
  fp4_tensor_core_unit : option ComputeUnit;
  fp16_cuda_core_unit : option ComputeUnit;
  fp64_cuda_core_unit : option ComputeUnit;
  int32_cuda_core_unit : option ComputeUnit;
  fp8_tensor_flops : option float;
  fp4_tensor_flops : option float;
  fp16_cuda_core_flops : option float;
  fp64_cuda_core_flops : option float;
  int32_cuda_core_flops : option float;
  warp_schedulers_per_sm : option Z;
  base_freq : option float;
  max_freq : option float;
  int8_flops : option float
}.

(** Attribute assignment [self.x = v]: the instance with one attribute
    replaced.  Each setter is the constructor applied to the projections of the
    instance, with [v] in the place of the assigned one. *)
Definition Arch_eta (a : Arch) : Arch :=
  mkArch (core a) (sm_count a) (freq a) (ddr_bandwidth a) (ddr_capacity a) (l2_bandwidth
    a) (l2_capacity a) (l2_partitions a) (sm_sub_partitions a)
    (l1_smem_throughput_per_cycle a) (configurable_smem_capacity a)
    (register_capacity_per_sm a) (fp16_tensor_core_unit a) (fp32_cuda_core_unit a)
    (sfu_unit a) (fp16_tensor_flops a) (fp32_cuda_core_flops a) (sfu_flops a)
    (smem_bandwidth a) (register_bandwidth a) (ddr_max_util a) (l2_max_util a)
    (l1_max_util a) (compute_max_util a) (fp8_tensor_core_unit a) (fp4_tensor_core_unit a)
    (fp16_cuda_core_unit a) (fp64_cuda_core_unit a) (int32_cuda_core_unit a)
    (fp8_tensor_flops a) (fp4_tensor_flops a) (fp16_cuda_core_flops a)
    (fp64_cuda_core_flops a) (int32_cuda_core_flops a) (warp_schedulers_per_sm a)
    (base_freq a) (max_freq a) (int8_flops a).

Ltac assign_attr proj :=
  let v := fresh "v" in
  let a := fresh "a" in
  intros v a;
  let t := eval cbv beta delta [Arch_eta] in (Arch_eta a) in
  match eval pattern (proj a) in t with
  | ?f _ => let r := eval cbv beta in (f v) in exact r
  end.

Definition set_core : option string -> Arch -> Arch := ltac:(assign_attr core).
Definition set_sm_count : Z -> Arch -> Arch := ltac:(assign_attr sm_count).
Definition set_freq : float -> Arch -> Arch := ltac:(assign_attr freq).
Definition set_ddr_bandwidth : float -> Arch -> Arch := ltac:(assign_attr ddr_bandwidth).
Definition set_ddr_capacity : Z -> Arch -> Arch := ltac:(assign_attr ddr_capacity).
Definition set_l2_bandwidth : float -> Arch -> Arch := ltac:(assign_attr l2_bandwidth).
Definition set_l2_capacity : Z -> Arch -> Arch := ltac:(assign_attr l2_capacity).
Definition set_l2_partitions : Z -> Arch -> Arch := ltac:(assign_attr l2_partitions).
Definition set_sm_sub_partitions : Z -> Arch -> Arch := ltac:(assign_attr sm_sub_partitions).
Definition set_l1_smem_throughput_per_cycle : Z -> Arch -> Arch := ltac:(assign_attr l1_smem_throughput_per_cycle).
Definition set_configurable_smem_capacity : Z -> Arch -> Arch := ltac:(assign_attr configurable_smem_capacity).
Definition set_register_capacity_per_sm : Z -> Arch -> Arch := ltac:(assign_attr register_capacity_per_sm).
Definition set_fp16_tensor_core_unit : option ComputeUnit -> Arch -> Arch := ltac:(assign_attr fp16_tensor_core_unit).
Definition set_fp32_cuda_core_unit : option ComputeUnit -> Arch -> Arch := ltac:(assign_attr fp32_cuda_core_unit).
Definition set_sfu_unit : option ComputeUnit -> Arch -> Arch := ltac:(assign_attr sfu_unit).
Definition set_fp16_tensor_flops : float -> Arch -> Arch := ltac:(assign_attr fp16_tensor_flops).
Definition set_fp32_cuda_core_flops : float -> Arch -> Arch := ltac:(assign_attr fp32_cuda_core_flops).
Definition set_sfu_flops : float -> Arch -> Arch := ltac:(assign_attr sfu_flops).
Definition set_smem_bandwidth : float -> Arch -> Arch := ltac:(assign_attr smem_bandwidth).
Definition set_register_bandwidth : float -> Arch -> Arch := ltac:(assign_attr register_bandwidth).
Definition set_ddr_max_util : float -> Arch -> Arch := ltac:(assign_attr ddr_max_util).
Definition set_l2_max_util : float -> Arch -> Arch := ltac:(assign_attr l2_max_util).
Definition set_l1_max_util : float -> Arch -> Arch := ltac:(assign_attr l1_max_util).
Definition set_compute_max_util : float -> Arch -> Arch := ltac:(assign_attr compute_max_util).
Definition set_fp8_tensor_core_unit : option ComputeUnit -> Arch -> Arch := ltac:(assign_attr fp8_tensor_core_unit).
Definition set_fp4_tensor_core_unit : option ComputeUnit -> Arch -> Arch := ltac:(assign_attr fp4_tensor_core_unit).
Definition set_fp16_cuda_core_unit : option ComputeUnit -> Arch -> Arch := ltac:(assign_attr fp16_cuda_core_unit).
Definition set_fp64_cuda_core_unit : option ComputeUnit -> Arch -> Arch := ltac:(assign_attr fp64_cuda_core_unit).
Definition set_int32_cuda_core_unit : option ComputeUnit -> Arch -> Arch := ltac:(assign_attr int32_cuda_core_unit).
Definition set_fp8_tensor_flops : option float -> Arch -> Arch := ltac:(assign_attr fp8_tensor_flops).
Definition set_fp4_tensor_flops : option float -> Arch -> Arch := ltac:(assign_attr fp4_tensor_flops).
Definition set_fp16_cuda_core_flops : option float -> Arch -> Arch := ltac:(assign_attr fp16_cuda_core_flops).
Definition set_fp64_cuda_core_flops : option float -> Arch -> Arch := ltac:(assign_attr fp64_cuda_core_flops).
Definition set_int32_cuda_core_flops : option float -> Arch -> Arch := ltac:(assign_attr int32_cuda_core_flops).
Definition set_warp_schedulers_per_sm : option Z -> Arch -> Arch := ltac:(assign_attr warp_schedulers_per_sm).
Definition set_base_freq : option float -> Arch -> Arch := ltac:(assign_attr base_freq).
Definition set_max_freq : option float -> Arch -> Arch := ltac:(assign_attr max_freq).
Definition set_int8_flops : option float -> Arch -> Arch := ltac:(assign_attr int8_flops).
(** Reading an attribute that only exists once assigned. *)
Definition read_attr {A : Type} (name : string) (o : option A) : result A :=
  match o with
  | Some v => Ok v
  | None => Raise (AttributeError name)
  end.

(** [Arch.__init__]: the unconfigured, all-zero instance. *)
Definition Arch__init__ : Arch :=
  {| core := None;
     sm_count := 0;
     freq := 0%float;
     ddr_bandwidth := 0%float;
     ddr_capacity := 0;
     l2_bandwidth := 0%float;
     l2_capacity := 0;
     l2_partitions := 1;
     sm_sub_partitions := 0;
     l1_smem_throughput_per_cycle := 0;
     configurable_smem_capacity := 0;
     register_capacity_per_sm := 0;
     fp16_tensor_core_unit := None;
     fp32_cuda_core_unit := None;
     sfu_unit := None;
     fp16_tensor_flops := 0%float;
     fp32_cuda_core_flops := 0%float;
     sfu_flops := 0%float;
     smem_bandwidth := 0%float;
     register_bandwidth := 0%float;
     ddr_max_util := 0.9%float;
     l2_max_util := 0.9%float;
     l1_max_util := 0.9%float;
     compute_max_util := 0.9%float;
     fp8_tensor_core_unit := None;
     fp4_tensor_core_unit := None;
     fp16_cuda_core_unit := None;
     fp64_cuda_core_unit := None;
     int32_cuda_core_unit := None;
     fp8_tensor_flops := None;
     fp4_tensor_flops := None;
     fp16_cuda_core_flops := None;
     fp64_cuda_core_flops := None;
     int32_cuda_core_flops := None;
     warp_schedulers_per_sm := None;
     base_freq := None;
     max_freq := None;
     int8_flops := None |}.

(** The right-hand side shared by the eight branches of [compute_flops]:
    [unit.calculate_flops(self.sm_count, self.freq)] when the slot holds a
    unit (for the five optional slots: when the attribute exists and holds
    one) and [self.sm_count > 0 and self.freq > 0], else [0.0]. *)
Definition slot_flops (unit : option ComputeUnit) (self : Arch) : result float :=
  match unit with
  | Some u =>
      if (0 <? sm_count self) && Py.float_gt_0 (freq self)
      then calculate_flops u (sm_count self) (freq self)
      else Ok 0%float
  | None => Ok 0%float
  end.

(** [Arch.compute_flops]. *)
Definition compute_flops (self : Arch) : result Arch :=
  v <- slot_flops (fp16_tensor_core_unit self) self ;;
  let self := set_fp16_tensor_flops v self in
  v <- slot_flops (fp8_tensor_core_unit self) self ;;
  let self := set_fp8_tensor_flops (Some v) self in
  v <- slot_flops (fp4_tensor_core_unit self) self ;;
  let self := set_fp4_tensor_flops (Some v) self in
  v <- slot_flops (fp32_cuda_core_unit self) self ;;
  let self := set_fp32_cuda_core_flops v self in
  v <- slot_flops (fp16_cuda_core_unit self) self ;;
  let self := set_fp16_cuda_core_flops (Some v) self in
  v <- slot_flops (fp64_cuda_core_unit self) self ;;
  let self := set_fp64_cuda_core_flops (Some v) self in
  v <- slot_flops (int32_cuda_core_unit self) self ;;
  let self := set_int32_cuda_core_flops (Some v) self in
  v <- slot_flops (sfu_unit self) self ;;
  let self := set_sfu_flops v self in
  Ok self.

(** The two right-hand sides of [compute_bandwidth], evaluated left to right:
    [sm_count * freq * l1_smem_throughput_per_cycle] and
    [sm_count * freq * sm_sub_partitions * 32 * 4]. *)
Definition smem_bandwidth_expr (self : Arch) : result float :=
  t <- Py.int_mul_float (sm_count self) (freq self) ;;
  Py.float_mul_int t (l1_smem_throughput_per_cycle self).

Definition register_bandwidth_expr (self : Arch) : result float :=
  t <- Py.int_mul_float (sm_count self) (freq self) ;;
  t <- Py.float_mul_int t (sm_sub_partitions self) ;;
  Ok (t * Py.float_of_Z 32 * Py.float_of_Z 4)%float.

(** [Arch.compute_bandwidth]. *)
Definition compute_bandwidth (self : Arch) : result Arch :=
  self <-
    (if (0 <? sm_count self) && Py.float_gt_0 (freq self)
        && (0 <? l1_smem_throughput_per_cycle self)
     then v <- smem_bandwidth_expr self ;; Ok (set_smem_bandwidth v self)
     else Ok (set_smem_bandwidth 0%float self)) ;;
  self <-
    (if (0 <? sm_count self) && Py.float_gt_0 (freq self)
        && (0 <? sm_sub_partitions self)
     then v <- register_bandwidth_expr self ;; Ok (set_register_bandwidth v self)
     else Ok (set_register_bandwidth 0%float self)) ;;
  Ok self.

(** [Arch.compute_metrics]. *)
Definition compute_metrics (self : Arch) : result Arch :=
  self <- compute_flops self ;;
  self <- compute_bandwidth self ;;
  Ok self.

(** The abstract configuration methods of the base class. *)
Definition Arch_set_to_spec (self : Arch) : result Arch :=
  Raise (NotImplementedError
    "Subclasses must implement set_to_spec() to configure the specific hardware's official specifications.").

Definition Arch_set_to_microbench (self : Arch) : result Arch :=
  Raise (NotImplementedError
    "Subclasses must implement set_to_microbench() to configure the specific hardware's microbenchmark parameters.").

Definition Arch_set_to_ncu (self : Arch) : result Arch :=
  Raise (NotImplementedError
    "Subclasses must implement set_to_ncu() to configure the specific hardware's NCU observed parameters.").

(** [ComputeUnit.__init__]: [shape] defaults to [None], stored as the empty
    list. *)
Definition ComputeUnit__init__ (unit_type dtype : string) (instances : Z)
    (shape : option (list Z)) (ops_per_element : Z) : ComputeUnit :=
  {| unit_type := unit_type;
     dtype := dtype;
     instances := instances;
     shape := match shape with Some l => l | None => [] end;
     ops_per_element := ops_per_element |}.

(** ** arch/cuda/h100_pcie.py *)

Module H100_PCIE.

Definition set_to_spec (self : Arch) : result Arch :=
  let self := set_core (Some "H100_PCIE") self in
  let self := set_sm_count 114 self in
  let self := set_freq (1.755 * 1e9)%float self in
  let self := set_ddr_bandwidth (Py.float_of_Z 2039 * 1e9)%float self in
  let self := set_ddr_capacity (80 * 1024 ^ 3) self in
  let self := set_l2_bandwidth 7598.47e9%float self in
  let self := set_l2_capacity (50 * 1024 ^ 2) self in
  let self := set_l2_partitions 2 self in
  let self := set_sm_sub_partitions 4 self in
  let self := set_l1_smem_throughput_per_cycle 128 self in
  let self := set_configurable_smem_capacity (228 * 1024 ^ 1) self in
  let self := set_register_capacity_per_sm (256 * 1024 ^ 1) self in
  let self := set_warp_schedulers_per_sm (Some 4) self in
  let self := set_fp16_tensor_core_unit None self in
  let self := set_fp32_cuda_core_unit None self in
  let self := set_sfu_unit None self in
  let self := set_fp16_tensor_flops 0%float self in
  let self := set_fp32_cuda_core_flops 0%float self in
  let self := set_sfu_flops 0%float self in
  let self := set_smem_bandwidth 0%float self in
  let self := set_register_bandwidth 0%float self in
  let self := set_ddr_max_util 0.9%float self in
  let self := set_l2_max_util 0.9%float self in
  let self := set_l1_max_util 0.9%float self in
  let self := set_compute_max_util 0.9%float self in
  let self := set_core (Some "H100_PCIE") self in
  let self := set_sm_count 114 self in
  let self := set_base_freq (Some (1.42 * 1e9)%float) self in
  f <- read_attr "max_freq" (max_freq self) ;;
  let self := set_freq f self in
  let self := set_fp16_tensor_core_unit
    (Some (ComputeUnit__init__ "tensor" "fp16" 4 (Some [8; 4; 16]) 2)) self in
  let self := set_fp8_tensor_core_unit
    (Some (ComputeUnit__init__ "tensor" "fp8" 4 (Some [8; 4; 16]) 2)) self in
  let self := set_fp32_cuda_core_unit
    (Some (ComputeUnit__init__ "vector" "fp32" 128 (Some []) 2)) self in
  let self := set_int32_cuda_core_unit
    (Some (ComputeUnit__init__ "vector" "int32" 64 (Some []) 2)) self in
  let self := set_fp16_cuda_core_unit
    (Some (ComputeUnit__init__ "vector" "fp16" 128 (Some []) 2)) self in
  let self := set_fp64_cuda_core_unit
    (Some (ComputeUnit__init__ "vector" "fp64" 64 (Some []) 2)) self in
  let self := set_sfu_unit
    (Some (ComputeUnit__init__ "sfu" "fp32" 16 (Some []) 2)) self in
  let self := set_ddr_max_util 0.9%float self in
  let self := set_l2_max_util 0.9%float self in
  let self := set_l1_max_util 0.9%float self in
  let self := set_compute_max_util 0.9%float self in
  self <- compute_metrics self ;;
  let self := set_int8_flops (Some (fp16_tensor_flops self * Py.float_of_Z 2)%float) self in
  Ok self.

Definition set_to_microbench (self : Arch) : result Arch :=
  let self := set_base_freq (Some (1.42 * 1e9)%float) self in
  let self := set_max_freq (Some (1.42 * 1e9)%float) self in
  let self := set_freq (1.42 * 1e9)%float self in
  let self := set_ddr_max_util 1.0%float self in
  let self := set_l2_max_util 1.0%float self in
  let self := set_l1_max_util 1.0%float self in
  let self := set_compute_max_util 1.0%float self in
  let self := set_ddr_bandwidth (1864.22 * 1e9)%float self in
  let self := set_l2_bandwidth (7598.48 * 1e9)%float self in
  let self := set_smem_bandwidth (20720.6 * 1e9)%float self in
  self <- compute_metrics self ;;
  let self := set_int8_flops (Some (fp16_tensor_flops self * Py.float_of_Z 2)%float) self in
  Ok self.

Definition set_to_ncu (self : Arch) : result Arch :=
  let self := set_base_freq (Some (1.06 * 1e9)%float) self in
  let self := set_max_freq (Some (1.06 * 1e9)%float) self in
  let self := set_freq (1.06 * 1e9)%float self in
  let self := set_ddr_max_util 0.9%float self in
  let self := set_l2_max_util 0.9%float self in
  let self := set_l1_max_util 0.9%float self in
  let self := set_compute_max_util 0.9%float self in
  self <- compute_metrics self ;;
  let self := set_int8_flops (Some (fp16_tensor_flops self * Py.float_of_Z 2)%float) self in
  Ok self.

(** [H100_PCIE.__init__]: [super().__init__()], then [self.set_to_spec()]. *)
Definition __init__ : result Arch :=
  let self := Arch__init__ in
  self <- set_to_spec self ;;
  Ok self.

End H100_PCIE.

(** ** arch/cuda/h100_sxm.py *)

Module H100_SXM.

Definition set_to_spec (self : Arch) : result Arch :=
  let self := set_core (Some "H100_SXM") self in
  let self := set_sm_count 132 self in
  let self := set_freq (1.83 * 1e9)%float self in
  let self := set_ddr_bandwidth (3352.32 * 1e9)%float self in
  let self := set_ddr_capacity (90 * 1024 ^ 3) self in
  let self := set_l2_bandwidth 8748e9%float self in
  let self := set_l2_capacity (50 * 1024 ^ 2) self in
  let self := set_l2_partitions 2 self in
  let self := set_sm_sub_partitions 4 self in
  let self := set_l1_smem_throughput_per_cycle 128 self in
  let self := set_configurable_smem_capacity (228 * 1024 ^ 1) self in
  let self := set_register_capacity_per_sm (256 * 1024 ^ 1) self in
  let self := set_fp16_tensor_core_unit
    (Some (ComputeUnit__init__ "tensor" "fp16" 4 (Some [8; 4; 16]) 2)) self in
  let self := set_fp8_tensor_core_unit
    (Some (ComputeUnit__init__ "tensor" "fp8" 4 (Some [8; 4; 32]) 2)) self in
  let self := set_fp32_cuda_core_unit
    (Some (ComputeUnit__init__ "vector" "fp32" 128 (Some [1]) 2)) self in
  let self := set_fp16_cuda_core_unit
    (Some (ComputeUnit__init__ "vector" "fp16" 128 (Some [1]) 2)) self in
  let self := set_fp64_cuda_core_unit
    (Some (ComputeUnit__init__ "vector" "fp64" 64 (Some [1]) 2)) self in
  let self := set_sfu_unit
    (Some (ComputeUnit__init__ "vector" "fp32" 16 (Some [1]) 2)) self in
  let self := set_ddr_max_util 0.9%float self in
  let self := set_l2_max_util 0.9%float self in
  let self := set_l1_max_util 0.9%float self in
  let self := set_compute_max_util 0.9%float self in
  self <- compute_metrics self ;;
  Ok self.

Definition set_to_microbench (self : Arch) : result Arch :=
  Ok self.

Definition set_to_ncu (self : Arch) : result Arch :=
  let self := set_freq (1.44 * 1e9)%float self in
  let self := set_ddr_max_util 0.9%float self in
  let self := set_l2_max_util 0.9%float self in
  let self := set_l1_max_util 0.9%float self in
  let self := set_compute_max_util 0.9%float self in
  self <- compute_metrics self ;;
  Ok self.

Definition __init__ : result Arch :=
  let self := Arch__init__ in
  self <- set_to_spec self ;;
  Ok self.

End H100_SXM.

(** ** arch/rocm/mi250x.py *)

Module MI250X.

Definition set_to_spec (self : Arch) : result Arch :=
  let self := set_core (Some "MI250X") self in
  let self := set_sm_count 110 self in
  let self := set_freq (2.1 * 1e9)%float self in
  let self := set_ddr_bandwidth (Py.float_of_Z 1600 * 1e9)%float self in
  let self := set_ddr_capacity (64 * 1024 ^ 3) self in
  let self := set_l2_bandwidth (Py.float_of_Z 3200 * 1e9)%float self in
  let self := set_l2_capacity (8 * 1024 ^ 2) self in
  let self := set_l2_partitions 1 self in
  let self := set_sm_sub_partitions 4 self in
  let self := set_l1_smem_throughput_per_cycle 128 self in
  let self := set_configurable_smem_capacity (164 * 1024 ^ 1) self in
  let self := set_register_capacity_per_sm (256 * 1024 ^ 1) self in
  let self := set_fp16_tensor_core_unit
    (Some (ComputeUnit__init__ "tensor" "fp16" 4 (Some [8; 4; 8]) 2)) self in
  let self := set_fp32_cuda_core_unit
    (Some (ComputeUnit__init__ "vector" "fp32" 64 (Some [1]) 2)) self in
  let self := set_fp16_cuda_core_unit
    (Some (ComputeUnit__init__ "vector" "fp16" 64 (Some [1]) 2)) self in
  let self := set_fp64_cuda_core_unit
    (Some (ComputeUnit__init__ "vector" "fp64" 32 (Some [1]) 2)) self in
  let self := set_sfu_unit
    (Some (ComputeUnit__init__ "vector" "fp32" 16 (Some [1]) 2)) self in
  let self := set_ddr_max_util 0.9%float self in
  let self := set_l2_max_util 0.9%float self in
  let self := set_l1_max_util 0.9%float self in
  let self := set_compute_max_util 0.9%float self in
  self <- compute_metrics self ;;
  Ok self.

Definition set_to_microbench (self : Arch) : result Arch :=
  let self := set_freq (1.36 * 1e9)%float self in
  let self := set_ddr_max_util 1.0%float self in
  let self := set_l2_max_util 1.0%float self in
  let self := set_l1_max_util 1.0%float self in
  let self := set_compute_max_util 1.0%float self in
  let self := set_ddr_bandwidth (1654.81 * 1e9)%float self in
  let self := set_l2_bandwidth (3234.77 * 1e9)%float self in
  let self := set_smem_bandwidth (Py.float_of_Z 19491 * 1e9)%float self in
  let self := set_fp32_cuda_core_flops (19.017181 * 1e12)%float self in
  let self := set_fp16_cuda_core_flops (Some (19.017181 * 1e12)%float) self in
  let self := set_fp16_tensor_flops (298.951 * 1e12)%float self in
  Ok self.

Definition set_to_ncu (self : Arch) : result Arch :=
  let self := set_freq (1.06 * 1e9)%float self in
  let self := set_ddr_max_util 0.9%float self in
  let self := set_l2_max_util 0.9%float self in
  let self := set_l1_max_util 0.9%float self in
  let self := set_compute_max_util 0.9%float self in
  self <- compute_metrics self ;;
  Ok self.

Definition __init__ : result Arch :=
  let self := Arch__init__ in
  self <- set_to_spec self ;;
  Ok self.

End MI250X.

(** ** The concrete architectures and their three configuration modes *)

Inductive variant : Type := V_H100_PCIE | V_H100_SXM | V_MI250X.

Inductive mode : Type := Spec | Microbench | Ncu.

Definition construct (v : variant) : result Arch :=
  match v with
  | V_H100_PCIE => H100_PCIE.__init__
  | V_H100_SXM => H100_SXM.__init__
  | V_MI250X => MI250X.__init__
  end.

Definition call_mode (v : variant) (m : mode) (self : Arch) : result Arch :=
  match v, m with
  | V_H100_PCIE, Spec => H100_PCIE.set_to_spec self
  | V_H100_PCIE, Microbench => H100_PCIE.set_to_microbench self
  | V_H100_PCIE, Ncu => H100_PCIE.set_to_ncu self
  | V_H100_SXM, Spec => H100_SXM.set_to_spec self
  | V_H100_SXM, Microbench => H100_SXM.set_to_microbench self
  | V_H100_SXM, Ncu => H100_SXM.set_to_ncu self
  | V_MI250X, Spec => MI250X.set_to_spec self
  | V_MI250X, Microbench => MI250X.set_to_microbench self
  | V_MI250X, Ncu => MI250X.set_to_ncu self
  end.


(** ** Attributes by name

    The attributes of an instance as Python sees them: [getattr a x] is
    [None] when the instance has no attribute [x], and the value it holds
    otherwise.  Frame properties quantify over [attr]. *)

Inductive value : Type :=
  | VNone
  | VStr (s : string)
  | VInt (z : Z)
  | VFloat (f : float)
  | VUnit (u : ComputeUnit).

Inductive attr : Type :=
  | A_core
  | A_sm_count
  | A_freq
  | A_ddr_bandwidth
  | A_ddr_capacity
  | A_l2_bandwidth
  | A_l2_capacity
  | A_l2_partitions
  | A_sm_sub_partitions
  | A_l1_smem_throughput_per_cycle
  | A_configurable_smem_capacity
  | A_register_capacity_per_sm
  | A_fp16_tensor_core_unit
  | A_fp32_cuda_core_unit
  | A_sfu_unit
  | A_fp16_tensor_flops
  | A_fp32_cuda_core_flops
  | A_sfu_flops
  | A_smem_bandwidth
  | A_register_bandwidth
  | A_ddr_max_util
  | A_l2_max_util
  | A_l1_max_util
  | A_compute_max_util
  | A_fp8_tensor_core_unit
  | A_fp4_tensor_core_unit
  | A_fp16_cuda_core_unit
  | A_fp64_cuda_core_unit
  | A_int32_cuda_core_unit
  | A_fp8_tensor_flops
  | A_fp4_tensor_flops
  | A_fp16_cuda_core_flops
  | A_fp64_cuda_core_flops
  | A_int32_cuda_core_flops
  | A_warp_schedulers_per_sm
  | A_base_freq
  | A_max_freq
  | A_int8_flops.

Definition value_of_unit (u : option ComputeUnit) : value :=
  match u with Some u => VUnit u | None => VNone end.

Definition getattr (a : Arch) (x : attr) : option value :=
  match x with
  | A_core => Some (match core a with Some s => VStr s | None => VNone end)
  | A_sm_count => Some (VInt (sm_count a))
  | A_freq => Some (VFloat (freq a))
  | A_ddr_bandwidth => Some (VFloat (ddr_bandwidth a))
  | A_ddr_capacity => Some (VInt (ddr_capacity a))
  | A_l2_bandwidth => Some (VFloat (l2_bandwidth a))
  | A_l2_capacity => Some (VInt (l2_capacity a))
  | A_l2_partitions => Some (VInt (l2_partitions a))
  | A_sm_sub_partitions => Some (VInt (sm_sub_partitions a))
  | A_l1_smem_throughput_per_cycle => Some (VInt (l1_smem_throughput_per_cycle a))
  | A_configurable_smem_capacity => Some (VInt (configurable_smem_capacity a))
  | A_register_capacity_per_sm => Some (VInt (register_capacity_per_sm a))
  | A_fp16_tensor_core_unit => Some (value_of_unit (fp16_tensor_core_unit a))
  | A_fp32_cuda_core_unit => Some (value_of_unit (fp32_cuda_core_unit a))
  | A_sfu_unit => Some (value_of_unit (sfu_unit a))
  | A_fp16_tensor_flops => Some (VFloat (fp16_tensor_flops a))
  | A_fp32_cuda_core_flops => Some (VFloat (fp32_cuda_core_flops a))
  | A_sfu_flops => Some (VFloat (sfu_flops a))
  | A_smem_bandwidth => Some (VFloat (smem_bandwidth a))
  | A_register_bandwidth => Some (VFloat (register_bandwidth a))
  | A_ddr_max_util => Some (VFloat (ddr_max_util a))
  | A_l2_max_util => Some (VFloat (l2_max_util a))
  | A_l1_max_util => Some (VFloat (l1_max_util a))
  | A_compute_max_util => Some (VFloat (compute_max_util a))
  | A_fp8_tensor_core_unit => VUnit <$> fp8_tensor_core_unit a
  | A_fp4_tensor_core_unit => VUnit <$> fp4_tensor_core_unit a
  | A_fp16_cuda_core_unit => VUnit <$> fp16_cuda_core_unit a
  | A_fp64_cuda_core_unit => VUnit <$> fp64_cuda_core_unit a
  | A_int32_cuda_core_unit => VUnit <$> int32_cuda_core_unit a
  | A_fp8_tensor_flops => VFloat <$> fp8_tensor_flops a
  | A_fp4_tensor_flops => VFloat <$> fp4_tensor_flops a
  | A_fp16_cuda_core_flops => VFloat <$> fp16_cuda_core_flops a
  | A_fp64_cuda_core_flops => VFloat <$> fp64_cuda_core_flops a
  | A_int32_cuda_core_flops => VFloat <$> int32_cuda_core_flops a
  | A_warp_schedulers_per_sm => VInt <$> warp_schedulers_per_sm a
  | A_base_freq => VFloat <$> base_freq a
  | A_max_freq => VFloat <$> max_freq a
  | A_int8_flops => VFloat <$> int8_flops a
  end.

(** The derived-metric fields: the ones [compute_flops] and
    [compute_bandwidth] assign. *)
Definition is_derived (x : attr) : bool :=
  match x with
  | A_fp16_tensor_flops | A_fp8_tensor_flops | A_fp4_tensor_flops
  | A_fp32_cuda_core_flops | A_fp16_cuda_core_flops | A_fp64_cuda_core_flops
  | A_int32_cuda_core_flops | A_sfu_flops => true
  | A_smem_bandwidth | A_register_bandwidth => true
  | _ => false
  end.

Definition flops_field (x : attr) : bool :=
  match x with
  | A_fp16_tensor_flops | A_fp8_tensor_flops | A_fp4_tensor_flops
  | A_fp32_cuda_core_flops | A_fp16_cuda_core_flops | A_fp64_cuda_core_flops
  | A_int32_cuda_core_flops | A_sfu_flops => true
  | _ => false
  end.

Definition bandwidth_field (x : attr) : bool :=
  match x with
  | A_smem_bandwidth | A_register_bandwidth => true
  | _ => false
  end.

(** The derived fields of [a] are current: running [compute_metrics] on [a]
    succeeds and gives every derived field the value [a] already holds. *)
Definition metrics_current (a : Arch) : Prop :=
  exists a', compute_metrics a = Ok a' /\
    forall x, is_derived x = true -> getattr a' x = getattr a x.

(** The attributes that the body of [set_to_microbench] assigns, directly or
    through the [compute_metrics] it calls. *)
Definition microbench_assigns (v : variant) (x : attr) : bool :=
  match v with
  | V_H100_PCIE =>
      match x with
      | A_base_freq | A_max_freq | A_freq
      | A_ddr_max_util | A_l2_max_util | A_l1_max_util | A_compute_max_util
      | A_ddr_bandwidth | A_l2_bandwidth | A_smem_bandwidth
      | A_int8_flops => true
      | _ => is_derived x
      end
  | V_H100_SXM => false
  | V_MI250X =>
      match x with
      | A_freq
      | A_ddr_max_util | A_l2_max_util | A_l1_max_util | A_compute_max_util
      | A_ddr_bandwidth | A_l2_bandwidth | A_smem_bandwidth
      | A_fp32_cuda_core_flops | A_fp16_cuda_core_flops | A_fp16_tensor_flops => true
      | _ => false
      end
  end.

(** The modes whose body ends by running [compute_metrics]. *)
Definition runs_metrics (v : variant) (m : mode) : bool :=
  match v, m with
  | V_H100_SXM, Microbench => false
  | V_MI250X, Microbench => false
  | _, _ => true
  end.

(** ** utils/device_factory.py

    [DEVICE_ARCH_MAP] names five classes.  [H100_NVL] and [A100_SXM] are
    imported from modules that are not part of this tree; their constructors
    are parameters of the factory. *)

Inductive arch_class : Type :=
  | C_H100_PCIE | C_H100_SXM | C_H100_NVL | C_A100_SXM | C_MI250X.

Definition DEVICE_ARCH_MAP : gmap string arch_class :=
  <["AMD INSTINCT MI250X" := C_MI250X]>
  (<["NVIDIA A100-SXM4-80GB" := C_A100_SXM]>
  (<["NVIDIA H100 NVL" := C_H100_NVL]>
  (<["NVIDIA H100 80GB HBM3" := C_H100_SXM]>
  (<["NVIDIA H100 PCIe" := C_H100_PCIE]> ∅)))).

Section Factory.

Variable H100_NVL__init__ : result Arch.
Variable A100_SXM__init__ : result Arch.

(** [arch_class()]. *)
Definition instantiate (c : arch_class) : result Arch :=
  match c with
  | C_H100_PCIE => H100_PCIE.__init__
  | C_H100_SXM => H100_SXM.__init__
  | C_H100_NVL => H100_NVL__init__
  | C_A100_SXM => A100_SXM__init__
  | C_MI250X => MI250X.__init__
  end.

Definition no_class_message (device_name : string) : string :=
  ("No hardware abstraction class found for device: '" ++ device_name ++ "'. "
   ++ "Please ensure the device name is correct and its corresponding "
   ++ "Arch subclass is implemented and added to DEVICE_ARCH_MAP.")%string.

(** [create_device_arch(device_name)].  The second [if arch_class is None]
    of the source repeats the first and is never taken. *)
Definition create_device_arch (device_name : string) : result Arch :=
  match DEVICE_ARCH_MAP !! device_name with
  | None => Raise (ValueError (no_class_message device_name))
  | Some arch_class => instantiate arch_class
  end.

End Factory.

(** ** The values a metric pass computes

    [compute_metrics] reads the unit slots and the scalars [sm_count], [freq],
    [l1_smem_throughput_per_cycle] and [sm_sub_partitions], and writes ten
    fields.  [eval_metrics] is the reading half, [store_metrics] the writing
    half; [compute_metrics_eq] below shows that the method is their
    composition. *)

Record metrics : Type := mkMetrics {
  m_fp16_tensor_flops : float;
  m_fp8_tensor_flops : float;
  m_fp4_tensor_flops : float;
  m_fp32_cuda_core_flops : float;
  m_fp16_cuda_core_flops : float;
  m_fp64_cuda_core_flops : float;
  m_int32_cuda_core_flops : float;
  m_sfu_flops : float;
  m_smem_bandwidth : float;
  m_register_bandwidth : float
}.

Definition smem_bandwidth_value (self : Arch) : result float :=
  if (0 <? sm_count self) && Py.float_gt_0 (freq self)
     && (0 <? l1_smem_throughput_per_cycle self)
  then smem_bandwidth_expr self else Ok 0%float.

Definition register_bandwidth_value (self : Arch) : result float :=
  if (0 <? sm_count self) && Py.float_gt_0 (freq self)
     && (0 <? sm_sub_partitions self)
  then register_bandwidth_expr self else Ok 0%float.

Definition eval_metrics (a : Arch) : result metrics :=
  v1 <- slot_flops (fp16_tensor_core_unit a) a ;;
  v2 <- slot_flops (fp8_tensor_core_unit a) a ;;
  v3 <- slot_flops (fp4_tensor_core_unit a) a ;;
  v4 <- slot_flops (fp32_cuda_core_unit a) a ;;
  v5 <- slot_flops (fp16_cuda_core_unit a) a ;;
  v6 <- slot_flops (fp64_cuda_core_unit a) a ;;
  v7 <- slot_flops (int32_cuda_core_unit a) a ;;
  v8 <- slot_flops (sfu_unit a) a ;;
  s <- smem_bandwidth_value a ;;
  r <- register_bandwidth_value a ;;
  Ok (mkMetrics v1 v2 v3 v4 v5 v6 v7 v8 s r).

Definition store_flops (m : metrics) (a : Arch) : Arch :=
  set_sfu_flops (m_sfu_flops m)
    (set_int32_cuda_core_flops (Some (m_int32_cuda_core_flops m))
    (set_fp64_cuda_core_flops (Some (m_fp64_cuda_core_flops m))
    (set_fp16_cuda_core_flops (Some (m_fp16_cuda_core_flops m))
    (set_fp32_cuda_core_flops (m_fp32_cuda_core_flops m)
    (set_fp4_tensor_flops (Some (m_fp4_tensor_flops m))
    (set_fp8_tensor_flops (Some (m_fp8_tensor_flops m))
    (set_fp16_tensor_flops (m_fp16_tensor_flops m) a))))))).

Definition store_bandwidth (m : metrics) (a : Arch) : Arch :=
  set_register_bandwidth (m_register_bandwidth m)
    (set_smem_bandwidth (m_smem_bandwidth m) a).

Definition store_metrics (m : metrics) (a : Arch) : Arch :=
  store_bandwidth m (store_flops m a).

(** ** Statements shared by the theorems *)

(** The construction invariant of a [ComputeUnit]. *)
Definition valid_unit (u : ComputeUnit) : Prop :=
  1 <= instances u /\ 1 <= ops_per_element u /\ Forall (fun d => 1 <= d) (shape u).

(** The integer factor of [calculate_flops]:
    [instances * product(shape, or 1 if empty) * ops_per_element * sm_count]. *)
Definition flops_factor (u : ComputeUnit) (sm_count : Z) : Z :=
  instances u * (match shape u with [] => 1 | _ => fold_left Z.mul (shape u) 1 end)
  * ops_per_element u * sm_count.

(** The integers a metric pass converts all have doubles. *)
Definition unit_fits (u : option ComputeUnit) (sm_count : Z) : Prop :=
  match u with
  | Some u => Py.fits_double (flops_factor u sm_count) = true
  | None => True
  end.

Definition metrics_defined (a : Arch) : Prop :=
  unit_fits (fp16_tensor_core_unit a) (sm_count a) /\
  unit_fits (fp8_tensor_core_unit a) (sm_count a) /\
  unit_fits (fp4_tensor_core_unit a) (sm_count a) /\
  unit_fits (fp32_cuda_core_unit a) (sm_count a) /\
  unit_fits (fp16_cuda_core_unit a) (sm_count a) /\
  unit_fits (fp64_cuda_core_unit a) (sm_count a) /\
  unit_fits (int32_cuda_core_unit a) (sm_count a) /\
  unit_fits (sfu_unit a) (sm_count a) /\
  Py.fits_double (sm_count a) = true /\
  Py.fits_double (l1_smem_throughput_per_cycle a) = true /\
  Py.fits_double (sm_sub_partitions a) = true.

(** The configuration scalars that no mode but [set_to_spec] assigns, and the
    unit slots. *)
Definition config_or_slot (x : attr) : bool :=
  match x with
  | A_core | A_sm_count | A_ddr_capacity | A_l2_capacity | A_l2_partitions
  | A_sm_sub_partitions | A_l1_smem_throughput_per_cycle
  | A_configurable_smem_capacity | A_register_capacity_per_sm
  | A_warp_schedulers_per_sm => true
  | A_fp16_tensor_core_unit | A_fp8_tensor_core_unit | A_fp4_tensor_core_unit
  | A_fp32_cuda_core_unit | A_fp16_cuda_core_unit | A_fp64_cuda_core_unit
  | A_int32_cuda_core_unit | A_sfu_unit => true
  | _ => false
  end.

(** An unconfigured instance given 114 SMs at 1.755 GHz, 128 bytes per cycle
    of shared memory and 4 sub-partitions. *)
Definition example_arch : Arch :=
  set_sm_sub_partitions 4 (set_l1_smem_throughput_per_cycle 128
    (set_freq 1.755e9%float (set_sm_count 114 Arch__init__))).

(** ** Statements about the code beyond the three-mode contract *)

(** The unit slot behind each FLOPs field. *)
Definition unit_of_flops (x : attr) (a : Arch) : option (option ComputeUnit) :=
  match x with
  | A_fp16_tensor_flops => Some (fp16_tensor_core_unit a)
  | A_fp8_tensor_flops => Some (fp8_tensor_core_unit a)
  | A_fp4_tensor_flops => Some (fp4_tensor_core_unit a)
  | A_fp32_cuda_core_flops => Some (fp32_cuda_core_unit a)
  | A_fp16_cuda_core_flops => Some (fp16_cuda_core_unit a)
  | A_fp64_cuda_core_flops => Some (fp64_cuda_core_unit a)
  | A_int32_cuda_core_flops => Some (int32_cuda_core_unit a)
  | A_sfu_flops => Some (sfu_unit a)
  | _ => None
  end.

(** The attributes the metric passes read. *)
Definition metric_input (x : attr) : bool :=
  match x with
  | A_sm_count | A_freq | A_l1_smem_throughput_per_cycle | A_sm_sub_partitions => true
  | A_fp16_tensor_core_unit | A_fp8_tensor_core_unit | A_fp4_tensor_core_unit
  | A_fp32_cuda_core_unit | A_fp16_cuda_core_unit | A_fp64_cuda_core_unit
  | A_int32_cuda_core_unit | A_sfu_unit => true
  | _ => false
  end.

(** An unconfigured instance with the FP16 tensor cores of an H100 on 114 SMs
    at 1.755 GHz. *)
Definition example_tensor_arch : Arch :=
  set_fp16_tensor_core_unit
    (Some (ComputeUnit__init__ "tensor" "fp16" 4 (Some [8; 4; 16]) 2)) example_arch.

(** A shape without its entries equal to 1. *)
Definition remove_ones (l : list Z) : list Z :=
  List.filter (fun d => negb (d =? 1)) l.

(** The frequency a mode of [H100_PCIE] other than [set_to_spec] assigns. *)
Definition H100_PCIE_mode_freq (m : mode) : float :=
  match m with
  | Microbench => (1.42 * 1e9)%float
  | _ => (1.06 * 1e9)%float
  end.

(** The states of an instance: the one its constructor leaves, and the ones
    a mode call that returns leads to. *)
Inductive reachable (v : variant) : Arch -> Prop :=
  | reach_construct (s : Arch) : construct v = Ok s -> reachable v s
  | reach_mode (s s' : Arch) (m : mode) :
      reachable v s -> call_mode v m s = Ok s' -> reachable v s'.

(** The optional attributes that no method of [H100_SXM], respectively
    [MI250X], ever assigns. *)
Definition never_assigned (v : variant) (x : attr) : bool :=
  match x with
  | A_fp4_tensor_core_unit | A_int32_cuda_core_unit
  | A_warp_schedulers_per_sm | A_base_freq | A_max_freq | A_int8_flops => true
  | A_fp8_tensor_core_unit => match v with V_MI250X => true | _ => false end
  | _ => false
  end.

(** The attributes the body of [set_to_ncu] assigns, directly or through the
    [compute_metrics] it calls. *)
Definition ncu_assigns (v : variant) (x : attr) : bool :=
  match x with
  | A_freq | A_ddr_max_util | A_l2_max_util | A_l1_max_util | A_compute_max_util => true
  | A_base_freq | A_max_freq | A_int8_flops =>
      match v with V_H100_PCIE => true | _ => false end
  | _ => is_derived x
  end.

(** The four utilization ceilings of an instance. *)
Definition ceilings (a : Arch) : list float :=
  [ddr_max_util a; l2_max_util a; l1_max_util a; compute_max_util a].

(** * Properties *)

(** ** The result monad *)

Lemma bind_ret {A : Type} (m : result A) : (x <- m ;; Ok x) = m.
Proof. destruct m; reflexivity. Qed.

Lemma bind_inv {A B : Type} (m : result A) (k : A -> result B) (b : B) :
  bind m k = Ok b -> exists a, m = Ok a /\ k a = Ok b.
Proof. destruct m as [a|e]; simpl; intros H; [eauto | discriminate]. Qed.

(** Two floats that differ bit for bit are different. *)
Lemma float_neq (x y : float) : PrimFloat.Leibniz.eqb x y = false -> x <> y.
Proof. intros H E. apply Leibniz.eqb_spec in E. congruence. Qed.

Lemma Ok_inj {A : Type} (a b : A) : @Ok A a = Ok b -> a = b.
Proof. congruence. Qed.

(** ** ComputeUnit.calculate_flops *)

Lemma calculate_flops_eq (u : ComputeUnit) (sm_count : Z) (freq_hz : float) :
  calculate_flops u sm_count freq_hz =
    if (sm_count <=? 0) || (freq_hz <=? 0)%float then Ok 0%float
    else Py.int_mul_float (flops_factor u sm_count) freq_hz.
Proof.
  unfold calculate_flops, flops_factor, Py.float_le_0, Py.prod.
  destruct ((sm_count <=? 0) || (freq_hz <=? 0)%float); [reflexivity|].
  rewrite bind_ret. destruct (shape u); reflexivity.
Qed.

(** C3 as stated fails: past the guard the function does not always return.
    With one instance, one operation per element and
    [sm_count = 2^1024 - 2^970], an integer that has no finite double, the
    product with [freq_hz = 1.0] raises [OverflowError]. *)
Lemma calculate_flops_not_total :
  ~ (forall u sm_count freq_hz,
       exists v, calculate_flops u sm_count freq_hz = Ok v /\
         v = if (sm_count <=? 0) || (freq_hz <=? 0)%float then 0%float
             else (Py.float_of_Z (flops_factor u sm_count) * freq_hz)%float).
Proof.
  intros H.
  destruct (H (ComputeUnit__init__ "vector" "fp32" 1 (Some []) 1)
              (2 ^ 1024 - 2 ^ 970) 1%float) as (v & Hv & _).
  vm_compute in Hv. discriminate Hv.
Qed.

(** C3 (as the code has it). For every compute unit, SM count and frequency:
    when [sm_count <= 0 or freq_hz <= 0], [calculate_flops] returns exactly
    [0.0]; otherwise, when the integer factor
    [instances * product(shape, or 1 if empty) * ops_per_element * sm_count]
    has a finite double, it returns the double of that factor times
    [freq_hz], and when the factor has none it raises [OverflowError]. *)
Theorem calculate_flops_formula (u : ComputeUnit) (sm_count : Z) (freq_hz : float) :
  (sm_count <= 0 \/ (freq_hz <=? 0)%float = true ->
   calculate_flops u sm_count freq_hz = Ok 0%float) /\
  (0 < sm_count -> (freq_hz <=? 0)%float = false ->
   Py.fits_double (flops_factor u sm_count) = true ->
   calculate_flops u sm_count freq_hz
   = Ok (Py.float_of_Z (flops_factor u sm_count) * freq_hz)%float) /\
  (0 < sm_count -> (freq_hz <=? 0)%float = false ->
   Py.fits_double (flops_factor u sm_count) = false ->
   calculate_flops u sm_count freq_hz = Raise OverflowError).
Proof.
  unfold calculate_flops, Py.float_le_0.
  fold (Py.prod (shape u)). rewrite bind_ret.
  change (instances u * match shape u with [] => 1 | _ :: _ => Py.prod (shape u) end
          * ops_per_element u * sm_count) with (flops_factor u sm_count).
  split; [|split].
  - intros [Hs|Hf].
    + apply Z.leb_le in Hs. rewrite Hs. reflexivity.
    + rewrite Hf, orb_true_r. reflexivity.
  - intros Hs Hf Hfit. apply Z.leb_gt in Hs. rewrite Hs, Hf. cbn [orb].
    unfold Py.int_mul_float, Py.int_to_float. rewrite Hfit. reflexivity.
  - intros Hs Hf Hfit. apply Z.leb_gt in Hs. rewrite Hs, Hf. cbn [orb].
    unfold Py.int_mul_float, Py.int_to_float. rewrite Hfit. reflexivity.
Qed.

(** The FP16 tensor cores of the H100 SXM: 4 instances of shape 8x4x16, two
    operations per element, on 132 SMs at 1.83 GHz; the same unit on no SM;
    and a unit on [2^1024 - 2^970] SMs. *)
Lemma calculate_flops_formula_witness :
  calculate_flops (ComputeUnit__init__ "tensor" "fp16" 4 (Some [8; 4; 16]) 2)
    132 1.83e9%float = Ok 989429760000000%float /\
  calculate_flops (ComputeUnit__init__ "tensor" "fp16" 4 (Some [8; 4; 16]) 2)
    0 1.83e9%float = Ok 0%float /\
  calculate_flops (ComputeUnit__init__ "vector" "fp32" 1 (Some []) 1)
    (2 ^ 1024 - 2 ^ 970) 1%float = Raise OverflowError.
Proof.
  split; [|split].
  - rewrite (proj1 (proj2 (calculate_flops_formula
               (ComputeUnit__init__ "tensor" "fp16" 4 (Some [8; 4; 16]) 2)
               132 1.83e9%float)) eq_refl eq_refl eq_refl).
    vm_compute. reflexivity.
  - apply (proj1 (calculate_flops_formula
               (ComputeUnit__init__ "tensor" "fp16" 4 (Some [8; 4; 16]) 2)
               0 1.83e9%float)).
    left. lia.
  - apply (proj2 (proj2 (calculate_flops_formula
               (ComputeUnit__init__ "vector" "fp32" 1 (Some []) 1)
               (2 ^ 1024 - 2 ^ 970) 1%float))).
    + vm_compute. reflexivity.
    + vm_compute. reflexivity.
    + vm_compute. reflexivity.
Defined.

(** With an integer factor that has a double the product is returned. *)
Lemma calculate_flops_in_range (u : ComputeUnit) (sm_count : Z) (freq_hz : float) :
  (sm_count <=? 0) || (freq_hz <=? 0)%float = false ->
  Py.fits_double (flops_factor u sm_count) = true ->
  calculate_flops u sm_count freq_hz
  = Ok (Py.float_of_Z (flops_factor u sm_count) * freq_hz)%float.
Proof.
  intros Hg Hf. rewrite calculate_flops_eq, Hg.
  unfold Py.int_mul_float, Py.int_to_float. rewrite Hf. reflexivity.
Qed.

(** Beyond the doubles the conversion of the integer factor raises. *)
Lemma calculate_flops_overflow (u : ComputeUnit) (sm_count : Z) (freq_hz : float) :
  (sm_count <=? 0) || (freq_hz <=? 0)%float = false ->
  Py.fits_double (flops_factor u sm_count) = false ->
  calculate_flops u sm_count freq_hz = Raise OverflowError.
Proof.
  intros Hg Hf. rewrite calculate_flops_eq, Hg.
  unfold Py.int_mul_float, Py.int_to_float. rewrite Hf. reflexivity.
Qed.

(** [math.prod] of the empty list is 1, so the test on [self.shape] does not
    change the product. *)
Lemma shape_product_prod (l : list Z) :
  match l with [] => 1 | _ :: _ => Py.prod l end = Py.prod l.
Proof. destruct l; reflexivity. Qed.

(** C6 (as the code computes it). With [shape = []], [instances = 4] and
    [ops_per_element = 2], [calculate_flops(114, 1.755e9)] returns
    [4 * 1 * 2 * 114 * 1.755e9 = 1,600,560,000,000.0]. *)
Theorem calculate_flops_example (unit_type dtype : string) :
  calculate_flops (ComputeUnit__init__ unit_type dtype 4 (Some []) 2) 114 1.755e9%float
  = Ok 1600560000000%float.
Proof. vm_compute. reflexivity. Qed.

(** C6 as stated fails: the value returned is not [1,601,964,000,000.0]. *)
Lemma example_flops_not_1601964e6 :
  ~ (forall unit_type dtype : string,
       calculate_flops (ComputeUnit__init__ unit_type dtype 4 (Some []) 2) 114 1.755e9%float
       = Ok 1601964000000%float).
Proof.
  intros H. specialize (H "vector" "fp32").
  vm_compute in H. apply Ok_inj in H.
  revert H. apply float_neq. vm_compute. reflexivity.
Qed.

(** ** The metric passes *)

Lemma compute_flops_eq (a : Arch) :
  compute_flops a =
    (v1 <- slot_flops (fp16_tensor_core_unit a) a ;;
     v2 <- slot_flops (fp8_tensor_core_unit a) a ;;
     v3 <- slot_flops (fp4_tensor_core_unit a) a ;;
     v4 <- slot_flops (fp32_cuda_core_unit a) a ;;
     v5 <- slot_flops (fp16_cuda_core_unit a) a ;;
     v6 <- slot_flops (fp64_cuda_core_unit a) a ;;
     v7 <- slot_flops (int32_cuda_core_unit a) a ;;
     v8 <- slot_flops (sfu_unit a) a ;;
     Ok (store_flops (mkMetrics v1 v2 v3 v4 v5 v6 v7 v8 0 0) a)).
Proof. reflexivity. Qed.

Lemma compute_bandwidth_eq (a : Arch) :
  compute_bandwidth a =
    (s <- smem_bandwidth_value a ;;
     r <- register_bandwidth_value a ;;
     Ok (set_register_bandwidth r (set_smem_bandwidth s a))).
Proof.
  assert (Hreg : forall s,
    (if (0 <? sm_count (set_smem_bandwidth s a))
        && Py.float_gt_0 (freq (set_smem_bandwidth s a))
        && (0 <? sm_sub_partitions (set_smem_bandwidth s a))
     then v <- register_bandwidth_expr (set_smem_bandwidth s a) ;;
          Ok (set_register_bandwidth v (set_smem_bandwidth s a))
     else Ok (set_register_bandwidth 0%float (set_smem_bandwidth s a)))
    = (r <- register_bandwidth_value a ;;
       Ok (set_register_bandwidth r (set_smem_bandwidth s a)))).
  { intros s. unfold register_bandwidth_value.
    change (sm_count (set_smem_bandwidth s a)) with (sm_count a).
    change (freq (set_smem_bandwidth s a)) with (freq a).
    change (sm_sub_partitions (set_smem_bandwidth s a)) with (sm_sub_partitions a).
    change (register_bandwidth_expr (set_smem_bandwidth s a))
      with (register_bandwidth_expr a).
    destruct ((0 <? sm_count a) && Py.float_gt_0 (freq a) && (0 <? sm_sub_partitions a));
      reflexivity. }
  unfold compute_bandwidth, smem_bandwidth_value.
  destruct ((0 <? sm_count a) && Py.float_gt_0 (freq a)
            && (0 <? l1_smem_throughput_per_cycle a)).
  - destruct (smem_bandwidth_expr a) as [s|e]; [|reflexivity]. cbn [bind].
    rewrite bind_ret. apply Hreg.
  - cbn [bind]. rewrite bind_ret. apply Hreg.
Qed.

(** [compute_metrics] evaluates the ten values on the instance it is given
    and stores them in it. *)
Lemma compute_metrics_eq (a : Arch) :
  compute_metrics a = (m <- eval_metrics a ;; Ok (store_metrics m a)).
Proof.
  unfold compute_metrics, eval_metrics. rewrite compute_flops_eq.
  repeat match goal with
  | |- context [bind (slot_flops ?u a) _] =>
      destruct (slot_flops u a); cbn [bind]; [|reflexivity]
  end.
  rewrite compute_bandwidth_eq.
  match goal with
  | |- context [smem_bandwidth_value ?b] =>
      change (smem_bandwidth_value b) with (smem_bandwidth_value a);
      change (register_bandwidth_value b) with (register_bandwidth_value a)
  end.
  destruct (smem_bandwidth_value a); cbn [bind]; [|reflexivity].
  destruct (register_bandwidth_value a); cbn [bind]; reflexivity.
Qed.

(** The values do not depend on the derived fields, and storing twice is
    storing once. *)
Lemma eval_metrics_store (m : metrics) (a : Arch) :
  eval_metrics (store_metrics m a) = eval_metrics a.
Proof. reflexivity. Qed.

Lemma store_metrics_twice (m m' : metrics) (a : Arch) :
  store_metrics m (store_metrics m' a) = store_metrics m a.
Proof. reflexivity. Qed.

Lemma store_metrics_frame (m : metrics) (a : Arch) (x : attr) :
  is_derived x = false -> getattr (store_metrics m a) x = getattr a x.
Proof. destruct x; intros H; try discriminate H; reflexivity. Qed.

Lemma store_flops_frame (m : metrics) (a : Arch) (x : attr) :
  flops_field x = false -> getattr (store_flops m a) x = getattr a x.
Proof. destruct x; intros H; try discriminate H; reflexivity. Qed.

Lemma compute_metrics_inv (a a' : Arch) :
  compute_metrics a = Ok a' ->
  exists m, eval_metrics a = Ok m /\ a' = store_metrics m a.
Proof.
  rewrite compute_metrics_eq. intros H. apply bind_inv in H.
  destruct H as (m & Hm & H). exists m. split; [exact Hm | congruence].
Qed.

Lemma compute_metrics_idem (a a' : Arch) :
  compute_metrics a = Ok a' -> compute_metrics a' = Ok a'.
Proof.
  intros H. apply compute_metrics_inv in H. destruct H as (m & Hm & ->).
  rewrite compute_metrics_eq, eval_metrics_store, Hm. reflexivity.
Qed.

(** *** When the passes return *)

Lemma int_to_float_fits (z : Z) :
  Py.fits_double z = true -> Py.int_to_float z = Ok (Py.float_of_Z z).
Proof. unfold Py.int_to_float. intros ->. reflexivity. Qed.

Lemma int_to_float_inv (z : Z) (f : float) :
  Py.int_to_float z = Ok f -> Py.fits_double z = true /\ f = Py.float_of_Z z.
Proof.
  unfold Py.int_to_float. destruct (Py.fits_double z); [|discriminate].
  intros H. apply Ok_inj in H. auto.
Qed.

Lemma int_to_float_raises (z : Z) (e : exn) :
  Py.int_to_float z = Raise e -> e = OverflowError.
Proof.
  unfold Py.int_to_float. destruct (Py.fits_double z); [discriminate|]. congruence.
Qed.

Lemma slot_flops_returns (u : option ComputeUnit) (a : Arch) :
  unit_fits u (sm_count a) -> returns (slot_flops u a).
Proof.
  unfold returns, slot_flops, unit_fits. destruct u as [u|]; [|eauto].
  intros Hf. destruct ((0 <? sm_count a) && Py.float_gt_0 (freq a)); [|eauto].
  rewrite calculate_flops_eq.
  destruct ((sm_count a <=? 0) || (freq a <=? 0)%float); [eauto|].
  unfold Py.int_mul_float. rewrite (int_to_float_fits _ Hf). cbn [bind]. eauto.
Qed.

Lemma smem_bandwidth_value_returns (a : Arch) :
  Py.fits_double (sm_count a) = true ->
  Py.fits_double (l1_smem_throughput_per_cycle a) = true ->
  returns (smem_bandwidth_value a).
Proof.
  intros H1 H2. unfold returns, smem_bandwidth_value, smem_bandwidth_expr,
    Py.int_mul_float, Py.float_mul_int.
  destruct (_ && _); [|eauto].
  rewrite (int_to_float_fits _ H1). cbn [bind].
  rewrite (int_to_float_fits _ H2). cbn [bind]. eauto.
Qed.

Lemma register_bandwidth_value_returns (a : Arch) :
  Py.fits_double (sm_count a) = true ->
  Py.fits_double (sm_sub_partitions a) = true ->
  returns (register_bandwidth_value a).
Proof.
  intros H1 H2. unfold returns, register_bandwidth_value, register_bandwidth_expr,
    Py.int_mul_float, Py.float_mul_int.
  destruct (_ && _); [|eauto].
  rewrite (int_to_float_fits _ H1). cbn [bind].
  rewrite (int_to_float_fits _ H2). cbn [bind]. eauto.
Qed.

Lemma eval_metrics_returns (a : Arch) :
  metrics_defined a -> returns (eval_metrics a).
Proof.
  intros (H1 & H2 & H3 & H4 & H5 & H6 & H7 & H8 & Hs & Hl & Hp).
  unfold eval_metrics.
  destruct (slot_flops_returns _ a H1) as [? ->]; cbn [bind].
  destruct (slot_flops_returns _ a H2) as [? ->]; cbn [bind].
  destruct (slot_flops_returns _ a H3) as [? ->]; cbn [bind].
  destruct (slot_flops_returns _ a H4) as [? ->]; cbn [bind].
  destruct (slot_flops_returns _ a H5) as [? ->]; cbn [bind].
  destruct (slot_flops_returns _ a H6) as [? ->]; cbn [bind].
  destruct (slot_flops_returns _ a H7) as [? ->]; cbn [bind].
  destruct (slot_flops_returns _ a H8) as [? ->]; cbn [bind].
  destruct (smem_bandwidth_value_returns a Hs Hl) as [? ->]; cbn [bind].
  destruct (register_bandwidth_value_returns a Hs Hp) as [? ->]; cbn [bind].
  unfold returns. eauto.
Qed.

Lemma compute_metrics_returns (a : Arch) :
  metrics_defined a -> returns (compute_metrics a).
Proof.
  intros H. destruct (eval_metrics_returns a H) as [m Hm].
  rewrite compute_metrics_eq, Hm. unfold returns. cbn [bind]. eauto.
Qed.

(** The values the bandwidth pass assigns. *)
Lemma smem_bandwidth_value_inv (a : Arch) (s : float) :
  smem_bandwidth_value a = Ok s ->
  s = if (0 <? sm_count a) && Py.float_gt_0 (freq a)
         && (0 <? l1_smem_throughput_per_cycle a)
      then (Py.float_of_Z (sm_count a) * freq a
            * Py.float_of_Z (l1_smem_throughput_per_cycle a))%float
      else 0%float.
Proof.
  unfold smem_bandwidth_value, smem_bandwidth_expr, Py.int_mul_float, Py.float_mul_int.
  destruct (_ && _); [|congruence].
  intros H. apply bind_inv in H. destruct H as (t & Ht & H).
  apply bind_inv in Ht. destruct Ht as (x & Hx & Ht).
  apply bind_inv in H. destruct H as (y & Hy & H).
  apply int_to_float_inv in Hx, Hy. destruct Hx as [_ ->], Hy as [_ ->].
  congruence.
Qed.

Lemma register_bandwidth_value_inv (a : Arch) (r : float) :
  register_bandwidth_value a = Ok r ->
  r = if (0 <? sm_count a) && Py.float_gt_0 (freq a) && (0 <? sm_sub_partitions a)
      then (Py.float_of_Z (sm_count a) * freq a * Py.float_of_Z (sm_sub_partitions a)
            * 32 * 4)%float
      else 0%float.
Proof.
  unfold register_bandwidth_value, register_bandwidth_expr, Py.int_mul_float,
    Py.float_mul_int.
  destruct (_ && _); [|congruence].
  intros H. apply bind_inv in H. destruct H as (t & Ht & H).
  apply bind_inv in Ht. destruct Ht as (x & Hx & Ht).
  apply bind_inv in H. destruct H as (t' & Ht' & H).
  apply bind_inv in Ht'. destruct Ht' as (y & Hy & Ht').
  apply int_to_float_inv in Hx, Hy. destruct Hx as [_ ->], Hy as [_ ->].
  change (Py.float_of_Z 32) with 32%float in H.
  change (Py.float_of_Z 4) with 4%float in H.
  congruence.
Qed.

(** C5. After the memory-bandwidth pass has run, [smem_bandwidth] is
    [sm_count * freq * l1_smem_throughput_per_cycle] when the three factors
    are positive and [0.0] otherwise, [register_bandwidth] is
    [sm_count * freq * sm_sub_partitions * 32 * 4] when its three factors are
    positive and [0.0] otherwise, and the pass assigns no other attribute, in
    particular neither [ddr_bandwidth] nor [l2_bandwidth].  The pass returns
    whenever the three integers it may convert have doubles. *)
Theorem compute_bandwidth_spec (a : Arch) :
  (Py.fits_double (sm_count a) = true ->
   Py.fits_double (l1_smem_throughput_per_cycle a) = true ->
   Py.fits_double (sm_sub_partitions a) = true ->
   returns (compute_bandwidth a)) /\
  (forall a', compute_bandwidth a = Ok a' ->
     smem_bandwidth a' =
       (if (0 <? sm_count a) && (0 <? freq a)%float
           && (0 <? l1_smem_throughput_per_cycle a)
        then (Py.float_of_Z (sm_count a) * freq a
              * Py.float_of_Z (l1_smem_throughput_per_cycle a))%float
        else 0%float) /\
     register_bandwidth a' =
       (if (0 <? sm_count a) && (0 <? freq a)%float && (0 <? sm_sub_partitions a)
        then (Py.float_of_Z (sm_count a) * freq a
              * Py.float_of_Z (sm_sub_partitions a) * 32 * 4)%float
        else 0%float) /\
     ddr_bandwidth a' = ddr_bandwidth a /\
     l2_bandwidth a' = l2_bandwidth a /\
     (forall x, bandwidth_field x = false -> getattr a' x = getattr a x)).
Proof.
  split.
  - intros Hs Hl Hp. rewrite compute_bandwidth_eq.
    destruct (smem_bandwidth_value_returns a Hs Hl) as [s ->].
    destruct (register_bandwidth_value_returns a Hs Hp) as [r ->].
    unfold returns. cbn [bind]. eauto.
  - intros a'. rewrite compute_bandwidth_eq. intros H.
    apply bind_inv in H. destruct H as (s & Hs & H).
    apply bind_inv in H. destruct H as (r & Hr & H).
    apply Ok_inj in H. subst a'.
    apply smem_bandwidth_value_inv in Hs. apply register_bandwidth_value_inv in Hr.
    repeat split.
    + exact Hs.
    + exact Hr.
    + intros x Hx. destruct x; try discriminate Hx; reflexivity.
Qed.

(** 114 SMs at 1.755 GHz with 128 bytes per cycle and 4 sub-partitions. *)
Lemma compute_bandwidth_spec_witness :
  exists a', compute_bandwidth example_arch = Ok a' /\
    smem_bandwidth a' = 25608960000000%float /\
    register_bandwidth a' = 102435840000000%float /\
    ddr_bandwidth a' = ddr_bandwidth example_arch.
Proof.
  destruct (proj1 (compute_bandwidth_spec example_arch)
              eq_refl eq_refl eq_refl) as [a' Ha'].
  exists a'. split; [exact Ha'|].
  destruct (proj2 (compute_bandwidth_spec example_arch) a' Ha')
    as (Hs & Hr & Hd & _ & _).
  split; [|split]; [rewrite Hs | rewrite Hr | exact Hd]; vm_compute; reflexivity.
Defined.

(** *** Only an integer without a double makes a pass raise *)

Lemma slot_flops_raises (u : option ComputeUnit) (a : Arch) (e : exn) :
  slot_flops u a = Raise e -> e = OverflowError.
Proof.
  unfold slot_flops. destruct u as [u|]; [|discriminate].
  destruct (_ && _); [|discriminate].
  rewrite calculate_flops_eq. destruct (_ || _); [discriminate|].
  unfold Py.int_mul_float.
  destruct (Py.int_to_float (flops_factor u (sm_count a))) eqn:E; [discriminate|].
  cbn [bind]. intros H. apply int_to_float_raises in E. congruence.
Qed.

Lemma smem_bandwidth_value_raises (a : Arch) (e : exn) :
  smem_bandwidth_value a = Raise e -> e = OverflowError.
Proof.
  unfold smem_bandwidth_value, smem_bandwidth_expr, Py.int_mul_float, Py.float_mul_int.
  destruct (_ && _); [|discriminate].
  destruct (Py.int_to_float (sm_count a)) eqn:E1; cbn [bind].
  - destruct (Py.int_to_float (l1_smem_throughput_per_cycle a)) eqn:E2; cbn [bind];
      [discriminate|].
    intros H. apply int_to_float_raises in E2. congruence.
  - intros H. apply int_to_float_raises in E1. congruence.
Qed.

Lemma register_bandwidth_value_raises (a : Arch) (e : exn) :
  register_bandwidth_value a = Raise e -> e = OverflowError.
Proof.
  unfold register_bandwidth_value, register_bandwidth_expr, Py.int_mul_float,
    Py.float_mul_int.
  destruct (_ && _); [|discriminate].
  destruct (Py.int_to_float (sm_count a)) eqn:E1; cbn [bind].
  - destruct (Py.int_to_float (sm_sub_partitions a)) eqn:E2; cbn [bind];
      [discriminate|].
    intros H. apply int_to_float_raises in E2. congruence.
  - intros H. apply int_to_float_raises in E1. congruence.
Qed.

Lemma eval_metrics_raises (a : Arch) (e : exn) :
  eval_metrics a = Raise e -> e = OverflowError.
Proof.
  unfold eval_metrics.
  repeat match goal with
  | |- bind (slot_flops ?u a) _ = Raise e -> _ =>
      let E := fresh "E" in
      destruct (slot_flops u a) eqn:E; cbn [bind];
      [|intros H; injection H as <-; exact (slot_flops_raises _ _ _ E)]
  end.
  destruct (smem_bandwidth_value a) eqn:Es; cbn [bind];
    [|intros H; injection H as <-; exact (smem_bandwidth_value_raises _ _ Es)].
  destruct (register_bandwidth_value a) eqn:Er; cbn [bind];
    [discriminate|intros H; injection H as <-; exact (register_bandwidth_value_raises _ _ Er)].
Qed.

Lemma compute_metrics_raises (a : Arch) (e : exn) :
  compute_metrics a = Raise e -> e = OverflowError.
Proof.
  rewrite compute_metrics_eq. destruct (eval_metrics a) eqn:E; cbn [bind];
    [discriminate|].
  intros H. injection H as <-. exact (eval_metrics_raises _ _ E).
Qed.

(** C10. Metric computation assigns only derived-metric fields: after
    [compute_metrics] every attribute that is not a derived field holds what
    it held before (the same for [compute_flops] outside the FLOPs fields and
    for [compute_bandwidth] outside the two bandwidth fields), the instance
    returned is the one updated, and a second run returns the very same
    state.  The method returns whenever the integers it converts have
    doubles, and raises nothing but the [OverflowError] of that conversion. *)
Theorem compute_metrics_frame (a : Arch) :
  (metrics_defined a -> returns (compute_metrics a)) /\
  (forall a', compute_metrics a = Ok a' ->
     (forall x, is_derived x = false -> getattr a' x = getattr a x) /\
     compute_metrics a' = Ok a') /\
  (forall a', compute_flops a = Ok a' ->
     forall x, flops_field x = false -> getattr a' x = getattr a x) /\
  (forall a', compute_bandwidth a = Ok a' ->
     forall x, bandwidth_field x = false -> getattr a' x = getattr a x) /\
  (forall e, compute_metrics a = Raise e -> e = OverflowError).
Proof.
  split; [apply compute_metrics_returns|].
  split; [|split; [|split]].
  - intros a' H. split; [|exact (compute_metrics_idem _ _ H)].
    apply compute_metrics_inv in H. destruct H as (m & _ & ->).
    intros x. apply store_metrics_frame.
  - intros a'. rewrite compute_flops_eq. intros H.
    repeat (apply bind_inv in H; destruct H as (? & _ & H)).
    apply Ok_inj in H. subst a'. intros y. apply store_flops_frame.
  - intros a'. rewrite compute_bandwidth_eq. intros H.
    repeat (apply bind_inv in H; destruct H as (? & _ & H)).
    apply Ok_inj in H. subst a'.
    intros y Hy. destruct y; try discriminate Hy; reflexivity.
  - apply compute_metrics_raises.
Qed.

Lemma example_arch_defined : metrics_defined example_arch.
Proof. repeat split. Qed.

Lemma compute_metrics_frame_witness :
  exists a', compute_metrics example_arch = Ok a' /\
    getattr a' A_sm_count = Some (VInt 114) /\
    compute_metrics a' = Ok a'.
Proof.
  destruct (proj1 (compute_metrics_frame example_arch) example_arch_defined)
    as [a' Ha'].
  exists a'. split; [exact Ha'|].
  destruct (proj1 (proj2 (compute_metrics_frame example_arch)) a' Ha') as [Hf Hi].
  split; [|exact Hi].
  rewrite (Hf A_sm_count eq_refl). reflexivity.
Defined.

(** ** The configuration modes *)

Ltac unfold_modes :=
  unfold H100_PCIE.set_to_spec, H100_PCIE.set_to_microbench, H100_PCIE.set_to_ncu,
    H100_SXM.set_to_spec, H100_SXM.set_to_microbench, H100_SXM.set_to_ncu,
    MI250X.set_to_spec, MI250X.set_to_microbench, MI250X.set_to_ncu;
  cbv zeta.

Lemma read_attr_inv {A : Type} (n : string) (o : option A) (v : A) :
  read_attr n o = Ok v -> o = Some v.
Proof. destruct o; simpl; congruence. Qed.

(** Inversion of a mode call that returned: the attribute read if there is
    one, then the metric pass if there is one, then the final assignments. *)
Ltac mode_inv H :=
  try (let f := fresh "f" in
       let Hf := fresh "Hf" in
       first [ match type of H with bind (read_attr _ _) _ = Ok _ => idtac end;
               apply bind_inv in H; destruct H as (f & Hf & H);
               apply read_attr_inv in Hf ]);
  try (let a' := fresh "a'" in
       let mv := fresh "mv" in
       let Ha := fresh "Ha" in
       let Hm := fresh "Hm" in
       first [ match type of H with bind (compute_metrics _) _ = Ok _ => idtac end;
               apply bind_inv in H; destruct H as (a' & Ha & H);
               apply compute_metrics_inv in Ha; destruct Ha as (mv & Hm & ->) ]);
  apply Ok_inj in H.

(** A mode called on the state it has just produced reproduces that state. *)
Lemma mode_twice (v : variant) (m : mode) (s s1 : Arch) :
  call_mode v m s = Ok s1 -> call_mode v m s1 = Ok s1.
Proof.
  destruct v, m; cbn [call_mode]; unfold_modes; intros H; mode_inv H; subst s1.
  all: try reflexivity.
  all: try (match goal with
       | Hf : ?l = Some ?f |- context [read_attr ?n ?o] =>
           change o with l; rewrite Hf; cbn [read_attr bind]
       end).
  all: match goal with
       | Hm : eval_metrics ?X = Ok ?mv |- bind (compute_metrics ?Y) _ = _ =>
           rewrite compute_metrics_eq; change (eval_metrics Y) with (eval_metrics X);
           rewrite Hm; cbn [bind]; reflexivity
       end.
Qed.

(** C7. For each of the three architectures and each of the three modes:
    when a mode method has returned, invoking the same method again at once
    returns too and leaves every derived-metric field with the value it had
    after the first invocation. *)
Theorem mode_twice_same_metrics (v : variant) (m : mode) (s s1 : Arch) :
  call_mode v m s = Ok s1 ->
  exists s2, call_mode v m s1 = Ok s2 /\
    forall x, is_derived x = true -> getattr s2 x = getattr s1 x.
Proof.
  intros H. exists s1. split; [exact (mode_twice _ _ _ _ H)|]. reflexivity.
Qed.

Lemma mode_twice_same_metrics_witness :
  exists s1 s2,
    call_mode V_MI250X Microbench Arch__init__ = Ok s1 /\
    call_mode V_MI250X Microbench s1 = Ok s2 /\
    getattr s2 A_fp16_tensor_flops = getattr s1 A_fp16_tensor_flops.
Proof.
  assert (E : exists s1, call_mode V_MI250X Microbench Arch__init__ = Ok s1)
    by (eexists; vm_compute; reflexivity).
  destruct E as [s1 E].
  destruct (mode_twice_same_metrics V_MI250X Microbench Arch__init__ s1 E)
    as (s2 & H2 & Hd).
  exists s1, s2. split; [exact E|]. split; [exact H2|].
  apply Hd. reflexivity.
Defined.

(** A mode that runs [compute_metrics] leaves the derived fields current. *)
Lemma runs_metrics_current (v : variant) (m : mode) (s s' : Arch) :
  runs_metrics v m = true -> call_mode v m s = Ok s' -> metrics_current s'.
Proof.
  destruct v, m; intros Hr; try discriminate Hr; clear Hr;
    cbn [call_mode]; unfold_modes; intros H; mode_inv H; subst s'.
  all: match goal with
       | Hm : eval_metrics ?X = Ok ?mv |- metrics_current ?Y =>
           exists (store_metrics mv Y); split;
           [ rewrite compute_metrics_eq; change (eval_metrics Y) with (eval_metrics X);
             rewrite Hm; reflexivity
           | intros x Hx; destruct x; try discriminate Hx; reflexivity ]
       end.
Qed.

(** C2 fails on the code for [MI250X.set_to_microbench]: on a freshly
    constructed [MI250X] the method moves [freq] from [2.1e9] to [1.36e9] and
    returns without the metric pass, so [sfu_flops], [fp64_cuda_core_flops]
    and [register_bandwidth] keep the values computed from the frequency of
    the specification, which are not the values [compute_metrics] computes
    from the state the instance then holds. *)
Theorem MI250X_microbench_stale_metrics :
  exists c s a',
    construct V_MI250X = Ok c /\
    call_mode V_MI250X Microbench c = Ok s /\
    compute_metrics s = Ok a' /\
    freq c = 2100000000%float /\ freq s = 1360000000%float /\
    sfu_flops s = sfu_flops c /\
    sfu_flops s = 7392000000000%float /\
    sfu_flops a' = 4787200000000%float /\
    fp64_cuda_core_flops s = fp64_cuda_core_flops c /\
    fp64_cuda_core_flops s = Some 14784000000000%float /\
    fp64_cuda_core_flops a' = Some 9574400000000%float /\
    register_bandwidth s = register_bandwidth c /\
    register_bandwidth s = 118272000000000%float /\
    register_bandwidth a' = 76595200000000%float /\
    ~ metrics_current s.
Proof.
  eexists. eexists. eexists.
  split; [vm_compute; reflexivity|].
  split; [vm_compute; reflexivity|].
  split; [vm_compute; reflexivity|].
  do 11 (split; [vm_compute; reflexivity|]).
  intros (b & Hb & Hd).
  vm_compute in Hb. apply Ok_inj in Hb. subst b.
  specialize (Hd A_sfu_flops eq_refl).
  pose proof (f_equal (fun o => match o with Some (VFloat f) => f | _ => 0%float end) Hd)
    as Hf.
  vm_compute in Hf. revert Hf. apply float_neq. vm_compute. reflexivity.
Qed.

(** The mode methods that run the metric pass.  Every mode method of the
    three architectures except the two [set_to_microbench] that run no metric
    pass leaves, when it returns, every derived-metric field equal to what
    [compute_metrics] computes from the state held at that moment.
    [H100_SXM.set_to_microbench] changes nothing.
    [MI250X.set_to_microbench] stores measured values in [smem_bandwidth],
    [fp32_cuda_core_flops], [fp16_cuda_core_flops] and
    [fp16_tensor_flops]. *)
Theorem mode_metrics_current :
  (forall v m s s',
     runs_metrics v m = true -> call_mode v m s = Ok s' -> metrics_current s') /\
  (forall s, call_mode V_H100_SXM Microbench s = Ok s) /\
  (forall s, exists s',
     call_mode V_MI250X Microbench s = Ok s' /\
     smem_bandwidth s' = (Py.float_of_Z 19491 * 1e9)%float /\
     fp32_cuda_core_flops s' = (19.017181 * 1e12)%float /\
     fp16_cuda_core_flops s' = Some (19.017181 * 1e12)%float /\
     fp16_tensor_flops s' = (298.951 * 1e12)%float).
Proof.
  split; [exact runs_metrics_current|]. split; [reflexivity|].
  intros s. eexists. split; [reflexivity|]. repeat split.
Qed.

Lemma mode_metrics_current_witness :
  exists c s',
    construct V_MI250X = Ok c /\ call_mode V_MI250X Ncu c = Ok s' /\
    sfu_flops s' = 3731200000000%float /\ metrics_current s'.
Proof.
  assert (E : exists c s', construct V_MI250X = Ok c /\
            call_mode V_MI250X Ncu c = Ok s' /\
            sfu_flops s' = 3731200000000%float).
  { eexists. eexists. split; [vm_compute; reflexivity|].
    split; [vm_compute; reflexivity|]. vm_compute. reflexivity. }
  destruct E as (c & s' & Ec & E & F). exists c, s'.
  split; [exact Ec|]. split; [exact E|]. split; [exact F|].
  exact (proj1 mode_metrics_current V_MI250X Ncu c s' eq_refl E).
Defined.

(** C8. For each of the three architectures: after [set_to_spec()] followed
    by [set_to_microbench()], every attribute that the microbench method does
    not assign holds the value it held right after [set_to_spec()]; among
    them are the configuration scalars ([core], [sm_count], the capacities,
    the partition counts, the shared-memory throughput) and all unit slots. *)
Theorem microbench_after_spec_frame (v : variant) (s s1 s2 : Arch) :
  call_mode v Spec s = Ok s1 ->
  call_mode v Microbench s1 = Ok s2 ->
  (forall x, microbench_assigns v x = false -> getattr s2 x = getattr s1 x) /\
  (forall x, config_or_slot x = true -> getattr s2 x = getattr s1 x).
Proof.
  intros _. destruct v; cbn [call_mode]; unfold_modes; intros H; mode_inv H; subst s2.
  all: split; intros x Hx; destruct x; try discriminate Hx; reflexivity.
Qed.

Lemma microbench_after_spec_frame_witness :
  exists s1 s2,
    call_mode V_MI250X Spec Arch__init__ = Ok s1 /\
    call_mode V_MI250X Microbench s1 = Ok s2 /\
    getattr s2 A_sm_count = getattr s1 A_sm_count /\
    getattr s2 A_sfu_unit = getattr s1 A_sfu_unit.
Proof.
  assert (E : exists s1 s2, call_mode V_MI250X Spec Arch__init__ = Ok s1 /\
                            call_mode V_MI250X Microbench s1 = Ok s2).
  { eexists. eexists. split; vm_compute; reflexivity. }
  destruct E as (s1 & s2 & E1 & E2). exists s1, s2.
  destruct (microbench_after_spec_frame V_MI250X Arch__init__ s1 s2 E1 E2) as [Hf Hc].
  split; [exact E1|]. split; [exact E2|].
  split; [apply Hc | apply Hc]; reflexivity.
Defined.

(** *** Which calls return *)

Lemma returns_bind {A B : Type} (m : result A) (k : A -> result B) :
  returns m -> (forall a, returns (k a)) -> returns (bind m k).
Proof. intros [a ->] Hk. apply Hk. Qed.

Lemma returns_Ok {A : Type} (a : A) : returns (Ok a).
Proof. exists a. reflexivity. Qed.

Ltac unfold_modes_in H :=
  unfold H100_PCIE.set_to_spec, H100_PCIE.set_to_microbench, H100_PCIE.set_to_ncu,
    H100_SXM.set_to_spec, H100_SXM.set_to_microbench, H100_SXM.set_to_ncu,
    MI250X.set_to_spec, MI250X.set_to_microbench, MI250X.set_to_ncu in H;
  cbv zeta in H.

(** Once [set_to_spec] has returned on an instance that holds no unit in the
    optional slots the architecture leaves alone, every mode returns. *)
Lemma modes_return_after_spec (v : variant) (m : mode) (s s1 : Arch) :
  fp8_tensor_core_unit s = None ->
  fp4_tensor_core_unit s = None ->
  int32_cuda_core_unit s = None ->
  call_mode v Spec s = Ok s1 -> returns (call_mode v m s1).
Proof.
  intros H8 H4 H32 H.
  destruct m; [exists s1; exact (mode_twice _ _ _ _ H) | idtac | idtac].
  all: destruct v; cbn [call_mode] in *; unfold_modes; unfold_modes_in H;
    mode_inv H; subst s1; try apply returns_Ok.
  all: apply returns_bind; [|intros; apply returns_Ok].
  all: apply compute_metrics_returns.
  all: repeat split; try (vm_compute; reflexivity).
  all: match goal with
       | |- unit_fits ?o _ =>
           first [ change o with (fp4_tensor_core_unit s); rewrite H4
                 | change o with (int32_cuda_core_unit s); rewrite H32
                 | change o with (fp8_tensor_core_unit s); rewrite H8 ];
           exact I
       end.
Qed.

(** [H100_SXM] and [MI250X] construct, and every mode returns on the
    instance constructed and on the unconfigured one. *)
Lemma construct_returns (v : variant) :
  v <> V_H100_PCIE -> returns (construct v).
Proof.
  destruct v; intros H; [congruence| |]; eexists; vm_compute; reflexivity.
Qed.

Lemma fresh_mode_returns (v : variant) (m : mode) :
  (v, m) <> (V_H100_PCIE, Spec) -> returns (call_mode v m Arch__init__).
Proof.
  destruct v, m; intros H; try congruence; eexists; vm_compute; reflexivity.
Qed.

Lemma constructed_mode_returns (v : variant) (m : mode) (s : Arch) :
  construct v = Ok s -> returns (call_mode v m s).
Proof.
  intros H. destruct v; cbn [construct] in H;
    unfold H100_PCIE.__init__, H100_SXM.__init__, MI250X.__init__ in H;
    cbv zeta in H; rewrite bind_ret in H.
  - vm_compute in H. discriminate H.
  - exact (modes_return_after_spec V_H100_SXM m Arch__init__ s eq_refl eq_refl eq_refl H).
  - exact (modes_return_after_spec V_MI250X m Arch__init__ s eq_refl eq_refl eq_refl H).
Qed.

(** [H100_PCIE.set_to_spec] reads [max_freq]: it returns exactly on the
    instances that have the attribute and whose optional slots convert. *)
Lemma H100_PCIE_spec_needs_max_freq (s : Arch) :
  max_freq s = None ->
  H100_PCIE.set_to_spec s = Raise (AttributeError "max_freq").
Proof.
  intros H. unfold H100_PCIE.set_to_spec. cbv zeta.
  match goal with
  | |- context [read_attr ?n ?o] => change o with (max_freq s)
  end.
  rewrite H. reflexivity.
Qed.

(** C1 fails on the code: constructing an [H100_PCIE] raises.  [__init__]
    calls [set_to_spec()] on the unconfigured instance, and [set_to_spec]
    evaluates [self.max_freq], an attribute that only [set_to_microbench] and
    [set_to_ncu] create. *)
Theorem H100_PCIE_construction_raises :
  H100_PCIE.__init__ = Raise (AttributeError "max_freq").
Proof. vm_compute. reflexivity. Qed.

(** ** The device factory *)

Lemma DEVICE_ARCH_MAP_lookup (name : string) (c : arch_class) :
  DEVICE_ARCH_MAP !! name = Some c <->
    (name = "NVIDIA H100 PCIe" /\ c = C_H100_PCIE) \/
    (name = "NVIDIA H100 80GB HBM3" /\ c = C_H100_SXM) \/
    (name = "NVIDIA H100 NVL" /\ c = C_H100_NVL) \/
    (name = "NVIDIA A100-SXM4-80GB" /\ c = C_A100_SXM) \/
    (name = "AMD INSTINCT MI250X" /\ c = C_MI250X).
Proof.
  unfold DEVICE_ARCH_MAP. split.
  - intros H.
    repeat (apply lookup_insert_Some in H;
            destruct H as [[<- <-]|[_ H]]; [intuition congruence|]).
    rewrite lookup_empty in H. discriminate.
  - intros [[-> ->]|[[-> ->]|[[-> ->]|[[-> ->]|[-> ->]]]]]; vm_compute; reflexivity.
Qed.

(** A name that is not a key raises the [ValueError] that names it. *)
Lemma create_device_arch_unmapped (nvl a100 : result Arch) (name : string) :
  DEVICE_ARCH_MAP !! name = None ->
  create_device_arch nvl a100 name = Raise (ValueError (no_class_message name)).
Proof. unfold create_device_arch. intros ->. reflexivity. Qed.

(** A key instantiates its class. *)
Lemma create_device_arch_mapped (nvl a100 : result Arch) (name : string)
    (c : arch_class) :
  DEVICE_ARCH_MAP !! name = Some c ->
  create_device_arch nvl a100 name = instantiate nvl a100 c.
Proof. unfold create_device_arch. intros ->. reflexivity. Qed.

Lemma create_device_arch_H100_SXM (nvl a100 : result Arch) :
  create_device_arch nvl a100 "NVIDIA H100 80GB HBM3" = H100_SXM.__init__ /\
  returns H100_SXM.__init__.
Proof. split; [reflexivity | exact (construct_returns V_H100_SXM ltac:(discriminate))]. Qed.

Lemma create_device_arch_MI250X (nvl a100 : result Arch) :
  create_device_arch nvl a100 "AMD INSTINCT MI250X" = MI250X.__init__ /\
  returns MI250X.__init__.
Proof. split; [reflexivity | exact (construct_returns V_MI250X ltac:(discriminate))]. Qed.

(** C9 fails on the code for the key ["NVIDIA H100 PCIe"]: the factory finds
    the class and instantiates it, and the constructor raises
    [AttributeError] instead of yielding an instance. *)
Theorem create_device_arch_H100_PCIE_raises (nvl a100 : result Arch) :
  create_device_arch nvl a100 "NVIDIA H100 PCIe" = Raise (AttributeError "max_freq").
Proof. vm_compute. reflexivity. Qed.

(** ** Binary64 rounding

    Facts about the specification of binary64 rounding that the sign of a
    product needs: what the two shifts of [binary_round_aux] leave, and that
    the double of an integer is a valid number of at least its magnitude. *)

Lemma fexp_eq (E : Z) : SpecFloat.fexp prec emax E = Z.max (E - 53) (-1074).
Proof. reflexivity. Qed.

Lemma digits2_pos_size (m : positive) : digits2_pos m = Pos.size m.
Proof. induction m; simpl; congruence. Qed.

Lemma Zdigits2_log2 (z : Z) : 0 < z -> Zdigits2 z = Z.log2 z + 1.
Proof.
  destruct z as [|p|p]; try lia. intros _. simpl Zdigits2.
  rewrite digits2_pos_size. destruct p; simpl; lia.
Qed.

Lemma shr_1_m (r : shr_record) : 0 <= shr_m r -> shr_m (shr_1 r) = Z.div2 (shr_m r).
Proof.
  destruct r as [m r s]. simpl. destruct m as [|[p|p|]|p]; simpl; try reflexivity; lia.
Qed.

Lemma iter_pos_shr_m (p : positive) (r : shr_record) :
  0 <= shr_m r -> shr_m (SpecFloat.iter_pos shr_1 p r) = Z.shiftr (shr_m r) (Zpos p).
Proof.
  revert r. induction p as [p IH|p IH|]; intros r Hr; simpl SpecFloat.iter_pos.
  - assert (H1 : 0 <= shr_m (shr_1 r)) by (rewrite shr_1_m by exact Hr; rewrite Z.div2_div; apply Z.div_pos; lia).
    assert (H2 : 0 <= shr_m (SpecFloat.iter_pos shr_1 p (shr_1 r))) by (rewrite IH by exact H1; apply Z.shiftr_nonneg; exact H1).
    rewrite IH by exact H2. rewrite IH by exact H1. rewrite shr_1_m by exact Hr.
    rewrite Z.div2_spec, !Z.shiftr_shiftr by lia. f_equal. lia.
  - assert (H2 : 0 <= shr_m (SpecFloat.iter_pos shr_1 p r)) by (rewrite IH by exact Hr; apply Z.shiftr_nonneg; exact Hr).
    rewrite IH by exact H2. rewrite IH by exact Hr.
    rewrite Z.shiftr_shiftr by lia. f_equal. lia.
  - rewrite shr_1_m by exact Hr. apply Z.div2_spec.
Qed.

Lemma shr_fexp_spec (m e : Z) (l : location) :
  0 <= m ->
  let N := Z.max 0 (SpecFloat.fexp prec emax (Zdigits2 m + e) - e) in
  shr_m (fst (shr_fexp prec emax m e l)) = Z.shiftr m N /\
  snd (shr_fexp prec emax m e l) = e + N.
Proof.
  intros Hm N. unfold shr_fexp, shr. subst N.
  assert (Hl : shr_m (shr_record_of_loc m l) = m) by (destruct l as [|[]]; reflexivity).
  destruct (SpecFloat.fexp prec emax (Zdigits2 m + e) - e) as [|p|p] eqn:En; cbn [fst snd].
  - rewrite Hl. split; [reflexivity | lia].
  - rewrite iter_pos_shr_m by (rewrite Hl; exact Hm). rewrite Hl.
    rewrite Z.max_r by lia. split; [reflexivity|lia].
  - rewrite Hl. rewrite Z.max_l by lia. split; [reflexivity | lia].
Qed.

Lemma round_nearest_even_bounds (m : Z) (l : location) :
  m <= round_nearest_even m l <= m + 1.
Proof. destruct l as [|[]]; simpl; try lia. destruct (Z.even m); lia. Qed.

Lemma shiftr_cases (a n : Z) :
  0 < a -> 0 <= n ->
  (Z.shiftr a n = 0 /\ Z.log2 a < n) \/
  (0 < Z.shiftr a n /\ n <= Z.log2 a /\ Z.log2 (Z.shiftr a n) = Z.log2 a - n).
Proof.
  intros Ha Hn.
  pose proof (Z.shiftr_eq_0_iff a n) as H0.
  pose proof (proj2 (Z.shiftr_nonneg a n) ltac:(lia)) as H1.
  pose proof (Z.log2_shiftr a n Ha) as H2.
  destruct (Z.eq_dec (Z.shiftr a n) 0) as [Hz|Hz].
  - left. split; [exact Hz|]. apply H0 in Hz. lia.
  - right. assert (~ Z.log2 a < n) by (intros C; apply Hz, H0; right; lia).
    lia.
Qed.

Lemma log2_round_up (a b : Z) :
  0 < a -> a <= b <= a + 1 -> Z.log2 b = Z.log2 a \/ Z.log2 b = Z.log2 a + 1.
Proof.
  intros Ha Hb. assert (b = a \/ b = Z.succ a) as [->| ->] by lia; [auto|].
  destruct (Z.log2_succ_or a); lia.
Qed.

(** Rounding a positive mantissa [m] at exponent [e], with
    [E = log2 m + 1 + e] the magnitude of the value: the result keeps the
    sign, vanishes only at or below the least subnormal, is never NaN, is
    never smaller in magnitude, and is a valid number (or an overflow beyond
    [2^1023]) when [e] is not above the exponent of the format. *)
Lemma binary_round_aux_cases (s : bool) (m : positive) (e : Z) :
  let E := Z.log2 (Zpos m) + 1 + e in
  match binary_round_aux prec emax s (Zpos m) e loc_Exact with
  | S754_zero s' => s' = s /\ E <= -1074
  | S754_infinity s' => s' = s /\ (e <= Z.max (E - 53) (-1074) -> 1024 <= E)
  | S754_nan => False
  | S754_finite s' m' e' =>
      s' = s /\ E <= Z.log2 (Zpos m') + 1 + e' /\
      (e <= Z.max (E - 53) (-1074) -> bounded prec emax m' e' = true)
  end.
Proof.
  intros E. unfold binary_round_aux.
  destruct (shr_fexp_spec (Zpos m) e loc_Exact ltac:(lia)) as [Hm1 He1].
  destruct (shr_fexp prec emax (Zpos m) e loc_Exact) as [mrs1 e1]. cbn [fst snd] in *.
  pose proof (round_nearest_even_bounds (shr_m mrs1) (loc_of_shr_record mrs1)) as Hr.
  set (m1 := round_nearest_even (shr_m mrs1) (loc_of_shr_record mrs1)) in *.
  rewrite Zdigits2_log2, fexp_eq in Hm1, He1 by lia. fold E in Hm1, He1.
  pose proof (Z.log2_nonneg (Zpos m)) as HL.
  set (N := Z.max 0 (Z.max (E - 53) (-1074) - e)) in *.
  destruct (shiftr_cases (Zpos m) N ltac:(lia) ltac:(lia)) as [[Hz HN]|(Hp & HN & Hlog)];
    rewrite <- Hm1 in *.
  - (* the first shift leaves nothing: the value is below the least subnormal *)
    assert (HE : E <= -1074) by lia.
    assert (He1' : e1 = -1074) by lia.
    assert (Hm1' : m1 = 0 \/ m1 = 1) by lia.
    destruct Hm1' as [Hm0|Hm0]; rewrite Hm0, He1'.
    + change (shr_fexp prec emax 0 (-1074) loc_Exact)
        with (Build_shr_record 0 false false, -1074). cbn [shr_m]. auto.
    + change (shr_fexp prec emax 1 (-1074) loc_Exact)
        with (Build_shr_record 1 false false, -1074). cbn [shr_m].
      change (-1074 <=? Z.sub emax prec) with true. cbv iota.
      split; [reflexivity|]. split; [|reflexivity].
      change (Z.log2 1) with 0. lia.
  - destruct (log2_round_up (shr_m mrs1) m1 Hp Hr) as [Hl1|Hl1];
    (destruct (shr_fexp_spec m1 e1 loc_Exact ltac:(lia)) as [Hm2 He2];
     destruct (shr_fexp prec emax m1 e1 loc_Exact) as [mrs2 e2]; cbn [fst snd] in *;
     rewrite Zdigits2_log2, fexp_eq in Hm2, He2 by lia;
     set (N1 := Z.max 0 (Z.max (Z.log2 m1 + 1 + e1 - 53) (-1074) - e1)) in *;
     destruct (shiftr_cases m1 N1 ltac:(lia) ltac:(lia)) as [[Hz2 HN2]|(Hp2 & HN2 & Hlog2)];
       rewrite <- Hm2 in *; [exfalso; lia|];
     destruct (shr_m mrs2) as [|q|q]; [lia| |lia];
     change (Z.sub emax prec) with 971;
     destruct (Z.leb_spec e2 971) as [Hle|Hgt];
     [ split; [reflexivity|]; split; [lia|]; intros Hpre;
       unfold bounded, canonical_mantissa;
       change (Zpos (digits2_pos q)) with (Zdigits2 (Zpos q));
       rewrite Zdigits2_log2, fexp_eq by lia;
       change (Z.sub emax prec) with 971;
       apply andb_true_intro; split; [apply Z.eqb_eq|apply Z.leb_le]; lia
     | split; [reflexivity|]; intros Hpre; lia ]).
Qed.

Lemma pos_iter_xO (m d : positive) : Zpos (Pos.iter xO m d) = Zpos m * 2 ^ Zpos d.
Proof.
  revert m. induction d as [|d IH] using Pos.peano_ind; intros m.
  - change (Pos.iter xO m 1) with (m~0)%positive. lia.
  - rewrite Pos.iter_succ, Pos2Z.inj_xO, IH, Pos2Z.inj_succ, Z.pow_succ_r by lia. lia.
Qed.

Lemma shl_align_spec (mx : positive) (ex ex' : Z) :
  let '(mz, ez) := shl_align mx ex ex' in
  ez = Z.min ex ex' /\ Z.log2 (Zpos mz) + ez = Z.log2 (Zpos mx) + ex.
Proof.
  unfold shl_align. destruct (ex' - ex) as [|d|d] eqn:Ed.
  - split; lia.
  - split; lia.
  - split; [lia|]. rewrite pos_iter_xO, Z.log2_mul_pow2 by lia. lia.
Qed.

(** The double of a non-zero integer keeps its sign, is never below it in
    magnitude class, and is a valid binary64 number. *)
Lemma binary_round_cases (s : bool) (p : positive) :
  match binary_round prec emax s p 0 with
  | S754_zero _ | S754_nan => False
  | S754_infinity s' => s' = s /\ 1023 <= Z.log2 (Zpos p)
  | S754_finite s' m e =>
      s' = s /\ 1 <= Z.log2 (Zpos m) + 1 + e /\ bounded prec emax m e = true
  end.
Proof.
  unfold binary_round.
  pose proof (shl_align_spec p 0 (SpecFloat.fexp prec emax (Zpos (digits2_pos p) + 0))) as Ha.
  destruct (shl_align p 0 _) as [mz ez]. destruct Ha as [Hez Hlog].
  change (Zpos (digits2_pos p)) with (Zdigits2 (Zpos p)) in Hez.
  rewrite Zdigits2_log2, fexp_eq in Hez by lia.
  pose proof (Z.log2_nonneg (Zpos p)) as HL.
  pose proof (binary_round_aux_cases s mz ez) as H. cbv zeta in H.
  destruct (binary_round_aux prec emax s (Zpos mz) ez loc_Exact) as [s'|s'| |s' m e].
  - lia.
  - destruct H as [-> H]. split; [reflexivity|]. lia.
  - exact H.
  - destruct H as (-> & H1 & H2). split; [reflexivity|]. split; [lia|]. apply H2. lia.
Qed.

Lemma Z2SF_cases (z : Z) :
  match Py.Z2SF z with
  | S754_zero s => z = 0 /\ s = false
  | S754_nan => False
  | S754_infinity s => 2 ^ 1023 <= Z.abs z /\ s = (z <? 0)
  | S754_finite s m e =>
      z <> 0 /\ s = (z <? 0) /\
      1 <= Z.log2 (Zpos m) + 1 + e /\ bounded prec emax m e = true
  end.
Proof.
  unfold Py.Z2SF, binary_normalize. destruct z as [|p|p].
  - auto.
  - pose proof (binary_round_cases false p) as H.
    destruct (binary_round prec emax false p 0) as [s'|s'| |s' m e]; try contradiction.
    + destruct H as [-> H]. split; [|reflexivity].
      apply Z.log2_le_pow2; [reflexivity | exact H].
    + destruct H as (-> & H1 & H2). split; [lia|]. split; [reflexivity|]. auto.
  - pose proof (binary_round_cases true p) as H.
    destruct (binary_round prec emax true p 0) as [s'|s'| |s' m e]; try contradiction.
    + destruct H as [-> H]. split; [|reflexivity].
      apply Z.log2_le_pow2; [reflexivity | exact H].
    + destruct H as (-> & H1 & H2). split; [lia|]. split; [reflexivity|]. auto.
Qed.

(** Every integer below [2^1023] in magnitude has a double. *)
Lemma fits_double_small (z : Z) : Z.abs z < 2 ^ 1023 -> Py.fits_double z = true.
Proof.
  intros Hz. unfold Py.fits_double. pose proof (Z2SF_cases z) as H.
  destruct (Py.Z2SF z); try reflexivity. lia.
Qed.

Lemma SFmul_pos (mx my : positive) (ex ey : Z) :
  1 <= Z.log2 (Zpos mx) + 1 + ex ->
  bounded prec emax my ey = true ->
  match SFmul prec emax (S754_finite false mx ex) (S754_finite false my ey) with
  | S754_infinity false | S754_finite false _ _ => True
  | _ => False
  end.
Proof.
  intros Hx Hy. unfold SFmul. cbn [xorb].
  pose proof (binary_round_aux_cases false (mx * my) (ex + ey)) as H. cbv zeta in H.
  unfold bounded, canonical_mantissa in Hy. apply andb_prop in Hy. destruct Hy as [Hy _].
  apply Z.eqb_eq in Hy.
  change (Zpos (digits2_pos my)) with (Zdigits2 (Zpos my)) in Hy.
  rewrite Zdigits2_log2, fexp_eq in Hy by lia.
  pose proof (Z.log2_nonneg (Zpos my)) as HLy.
  pose proof (Z.log2_mul_below (Zpos mx) (Zpos my) ltac:(lia) ltac:(lia)) as Hmul.
  rewrite <- Pos2Z.inj_mul in Hmul.
  destruct (binary_round_aux prec emax false (Zpos (mx * my)) (ex + ey) loc_Exact)
    as [s'|s'| |s' m e].
  - lia.
  - destruct H as [-> _]. exact I.
  - exact H.
  - destruct H as (-> & _). exact I.
Qed.

(** ** Python floats against the rounding specification *)

Lemma Z2SF_valid (z : Z) : valid_binary (Py.Z2SF z) = true.
Proof.
  pose proof (Z2SF_cases z) as H. destruct (Py.Z2SF z); try reflexivity.
  simpl. tauto.
Qed.

Lemma Prim2SF_float_of_Z (z : Z) : Prim2SF (Py.float_of_Z z) = Py.Z2SF z.
Proof. apply Prim2SF_SF2Prim, Z2SF_valid. Qed.

Lemma Prim2SF_zero : Prim2SF 0%float = S754_zero false.
Proof. reflexivity. Qed.

Lemma is_nan_Prim2SF (f : float) : is_nan f = false -> Prim2SF f <> S754_nan.
Proof.
  unfold is_nan. rewrite FloatAxioms.eqb_spec. intros H E. rewrite E in H. discriminate H.
Qed.

(** A float above zero is a positive finite number or plus infinity. *)
Lemma float_gt_0_cases (f : float) :
  (0 <? f)%float = true ->
  Prim2SF f = S754_infinity false \/
  exists m e, Prim2SF f = S754_finite false m e /\ bounded prec emax m e = true.
Proof.
  rewrite FloatAxioms.ltb_spec, Prim2SF_zero. pose proof (Prim2SF_valid f) as Hv.
  destruct (Prim2SF f) as [s|[|]| |[|] m e]; cbn; try discriminate; eauto.
Qed.

Lemma float_gt_0_intro (f : float) :
  match Prim2SF f with
  | S754_infinity false | S754_finite false _ _ => True
  | _ => False
  end ->
  (0 <? f)%float = true /\ (0 <=? f)%float = true /\ (f =? 0)%float = false.
Proof.
  rewrite FloatAxioms.ltb_spec, FloatAxioms.leb_spec, FloatAxioms.eqb_spec, Prim2SF_zero.
  destruct (Prim2SF f) as [s|[|]| |[|] m e]; cbn; intros H; try contradiction; auto.
Qed.

(** A float that is neither NaN nor [<= 0] is above zero. *)
Lemma float_not_le_0 (f : float) :
  is_nan f = false -> (f <=? 0)%float = false -> (0 <? f)%float = true.
Proof.
  intros Hn. apply is_nan_Prim2SF in Hn. revert Hn.
  rewrite FloatAxioms.ltb_spec, FloatAxioms.leb_spec, Prim2SF_zero.
  destruct (Prim2SF f) as [s|[|]| |[|] m e]; cbn; congruence.
Qed.

(** The product of the double of a positive integer and a float above zero
    is above zero: it cannot underflow to zero. *)
Lemma int_mul_float_pos (k : Z) (f : float) :
  1 <= k -> Py.fits_double k = true -> (0 <? f)%float = true ->
  (0 <? Py.float_of_Z k * f)%float = true /\
  (0 <=? Py.float_of_Z k * f)%float = true /\
  (Py.float_of_Z k * f =? 0)%float = false.
Proof.
  intros Hk Hfit Hf. apply float_gt_0_intro.
  rewrite FloatAxioms.mul_spec, Prim2SF_float_of_Z.
  unfold Py.fits_double in Hfit. pose proof (Z2SF_cases k) as Hc.
  destruct (Py.Z2SF k) as [s|s| |s m e]; try discriminate Hfit; try lia.
  destruct Hc as (_ & -> & Hmag & _).
  replace (k <? 0) with false by (symmetry; apply Z.ltb_ge; lia).
  destruct (float_gt_0_cases f Hf) as [->|(my & ey & -> & Hb)].
  - exact I.
  - exact (SFmul_pos m my e ey Hmag Hb).
Qed.

(** ** The sign of calculate_flops *)

Lemma fold_left_mul_pos (l : list Z) (acc : Z) :
  1 <= acc -> Forall (fun d => 1 <= d) l -> 1 <= fold_left Z.mul l acc.
Proof.
  revert acc. induction l as [|d l IH]; intros acc Hacc Hl; simpl; [exact Hacc|].
  inversion Hl; subst. apply IH; [nia | assumption].
Qed.

Lemma flops_factor_pos (u : ComputeUnit) (sm_count : Z) :
  valid_unit u -> 1 <= sm_count -> 1 <= flops_factor u sm_count.
Proof.
  intros (Hi & Ho & Hs) Hsm. unfold flops_factor.
  assert (1 <= match shape u with [] => 1 | _ => fold_left Z.mul (shape u) 1 end).
  { destruct (shape u) eqn:E; [lia|]. rewrite <- E in *. apply fold_left_mul_pos; [lia|exact Hs]. }
  nia.
Qed.

(** C4 (as the code has it). For a unit that satisfies the construction
    invariant and a frequency that is not NaN, [calculate_flops] returns
    whenever the integer factor has a double, and what it returns is a
    non-negative float, zero exactly when [sm_count <= 0 or freq_hz <= 0] and
    strictly positive otherwise; the only other outcome is the
    [OverflowError] of converting an integer factor beyond the doubles, with
    the guard passed. *)
Theorem calculate_flops_sign (u : ComputeUnit) (sm_count : Z) (freq_hz : float) :
  valid_unit u -> is_nan freq_hz = false ->
  (Py.fits_double (flops_factor u sm_count) = true ->
   returns (calculate_flops u sm_count freq_hz)) /\
  match calculate_flops u sm_count freq_hz with
  | Ok v =>
      (0 <=? v)%float = true /\
      ((v =? 0)%float = true <-> sm_count <= 0 \/ (freq_hz <=? 0)%float = true) /\
      (~ (sm_count <= 0 \/ (freq_hz <=? 0)%float = true) -> (0 <? v)%float = true)
  | Raise e =>
      e = OverflowError /\ Py.fits_double (flops_factor u sm_count) = false /\
      0 < sm_count /\ (freq_hz <=? 0)%float = false
  end.
Proof.
  intros Hu Hn. rewrite calculate_flops_eq. unfold Py.int_mul_float, Py.int_to_float.
  destruct (Z.leb_spec sm_count 0) as [Hsm|Hsm]; cbn [orb].
  - split; [intros _; apply returns_Ok|].
    split; [reflexivity|]. split; [split; auto|]. intros H. exfalso. auto.
  - destruct (freq_hz <=? 0)%float eqn:Hf.
    + split; [intros _; apply returns_Ok|].
      split; [reflexivity|]. split; [split; auto|]. intros H. exfalso. auto.
    + destruct (Py.fits_double (flops_factor u sm_count)) eqn:Hfit; cbn [bind].
      * split; [intros _; apply returns_Ok|].
        destruct (int_mul_float_pos (flops_factor u sm_count) freq_hz
                    (flops_factor_pos u sm_count Hu ltac:(lia)) Hfit
                    (float_not_le_0 freq_hz Hn Hf)) as (H1 & H2 & H3).
        split; [exact H2|]. split; [|intros _; exact H1].
        rewrite H3. split; [discriminate|]. intros [C|C]; [lia|discriminate C].
      * split; [discriminate|]. auto.
Qed.

Lemma calculate_flops_sign_witness :
  exists v,
    calculate_flops (ComputeUnit__init__ "tensor" "fp16" 4 (Some [8; 4; 16]) 2)
      132 (1.83 * 1e9)%float = Ok v /\
    (0 <? v)%float = true.
Proof.
  assert (Hu : valid_unit (ComputeUnit__init__ "tensor" "fp16" 4 (Some [8; 4; 16]) 2)).
  { split; [simpl; lia|]. split; [simpl; lia|]. simpl. repeat constructor; lia. }
  destruct (calculate_flops_sign _ 132 (1.83 * 1e9)%float Hu eq_refl) as [Hret H].
  destruct (Hret eq_refl) as [v Hv]. rewrite Hv in H. exists v. split; [exact Hv|].
  apply H. intros [C|C]; [lia | vm_compute in C; discriminate C].
Defined.

(** C4 as stated fails: with [freq_hz = nan] the guard [freq_hz <= 0] is
    false and the product returned is NaN, which is not [>= 0]. *)
Lemma calculate_flops_nan :
  ~ (forall u sm_count freq_hz, valid_unit u ->
       exists v, calculate_flops u sm_count freq_hz = Ok v /\
         (0 <=? v)%float = true /\
         ((v =? 0)%float = true <-> sm_count <= 0 \/ (freq_hz <=? 0)%float = true)).
Proof.
  intros H.
  destruct (H (ComputeUnit__init__ "vector" "fp32" 4 (Some []) 2) 114 nan)
    as (v & Hv & Hge & _).
  { split; [simpl; lia|]. split; [simpl; lia|]. constructor. }
  vm_compute in Hv. apply Ok_inj in Hv. subst v. vm_compute in Hge. discriminate Hge.
Qed.

(** * Further properties of the code *)

(** ** The compute-throughput pass, slot by slot *)

Lemma compute_flops_inv (a a' : Arch) :
  compute_flops a = Ok a' ->
  exists m,
    slot_flops (fp16_tensor_core_unit a) a = Ok (m_fp16_tensor_flops m) /\
    slot_flops (fp8_tensor_core_unit a) a = Ok (m_fp8_tensor_flops m) /\
    slot_flops (fp4_tensor_core_unit a) a = Ok (m_fp4_tensor_flops m) /\
    slot_flops (fp32_cuda_core_unit a) a = Ok (m_fp32_cuda_core_flops m) /\
    slot_flops (fp16_cuda_core_unit a) a = Ok (m_fp16_cuda_core_flops m) /\
    slot_flops (fp64_cuda_core_unit a) a = Ok (m_fp64_cuda_core_flops m) /\
    slot_flops (int32_cuda_core_unit a) a = Ok (m_int32_cuda_core_flops m) /\
    slot_flops (sfu_unit a) a = Ok (m_sfu_flops m) /\
    a' = store_flops m a.
Proof.
  rewrite compute_flops_eq. intros H.
  apply bind_inv in H. destruct H as (v1 & H1 & H).
  apply bind_inv in H. destruct H as (v2 & H2 & H).
  apply bind_inv in H. destruct H as (v3 & H3 & H).
  apply bind_inv in H. destruct H as (v4 & H4 & H).
  apply bind_inv in H. destruct H as (v5 & H5 & H).
  apply bind_inv in H. destruct H as (v6 & H6 & H).
  apply bind_inv in H. destruct H as (v7 & H7 & H).
  apply bind_inv in H. destruct H as (v8 & H8 & H).
  apply Ok_inj in H. subst a'.
  exists (mkMetrics v1 v2 v3 v4 v5 v6 v7 v8 0 0). cbn [m_fp16_tensor_flops
    m_fp8_tensor_flops m_fp4_tensor_flops m_fp32_cuda_core_flops m_fp16_cuda_core_flops
    m_fp64_cuda_core_flops m_int32_cuda_core_flops m_sfu_flops].
  repeat (split; [assumption|]). reflexivity.
Qed.

Lemma slot_flops_inv (u : option ComputeUnit) (a : Arch) (v : float) :
  slot_flops u a = Ok v ->
  match u with
  | Some u =>
      if (0 <? sm_count a) && (0 <? freq a)%float
      then calculate_flops u (sm_count a) (freq a) = Ok v
      else v = 0%float
  | None => v = 0%float
  end.
Proof.
  unfold slot_flops, Py.float_gt_0. destruct u as [u|]; [|congruence].
  destruct (_ && _); congruence.
Qed.

(** X1. When [compute_flops] returns, each of the eight FLOPs attributes
    exists and holds [unit.calculate_flops(sm_count, freq)] of its own slot,
    read from the instance as it was, when the slot holds a unit and
    [sm_count > 0 and freq > 0]; it holds [0.0] otherwise, also for a slot
    that is absent. *)
Theorem compute_flops_fields (a a' : Arch) :
  compute_flops a = Ok a' ->
  forall x slot, unit_of_flops x a = Some slot ->
  exists v, getattr a' x = Some (VFloat v) /\
    match slot with
    | Some u =>
        if (0 <? sm_count a) && (0 <? freq a)%float
        then calculate_flops u (sm_count a) (freq a) = Ok v
        else v = 0%float
    | None => v = 0%float
    end.
Proof.
  intros H. apply compute_flops_inv in H.
  destruct H as (m & H1 & H2 & H3 & H4 & H5 & H6 & H7 & H8 & ->).
  intros x slot Hx. destruct x; try discriminate Hx; apply Some_inj in Hx; subst slot;
    eexists; (split; [reflexivity|]); apply slot_flops_inv; assumption.
Qed.

Lemma compute_flops_fields_witness :
  exists a' v,
    compute_flops example_tensor_arch = Ok a' /\
    getattr a' A_fp16_tensor_flops = Some (VFloat v) /\
    calculate_flops (ComputeUnit__init__ "tensor" "fp16" 4 (Some [8; 4; 16]) 2)
      114 1.755e9%float = Ok v /\
    getattr a' A_fp4_tensor_flops = Some (VFloat 0).
Proof.
  assert (E : exists a', compute_flops example_tensor_arch = Ok a')
    by (eexists; vm_compute; reflexivity).
  destruct E as [a' E].
  destruct (compute_flops_fields example_tensor_arch a' E A_fp16_tensor_flops _ eq_refl)
    as (v & Hv & Hc).
  destruct (compute_flops_fields example_tensor_arch a' E A_fp4_tensor_flops _ eq_refl)
    as (w & Hw & Hz).
  exists a', v. split; [exact E|]. split; [exact Hv|]. split; [exact Hc|].
  cbn in Hz. rewrite Hw, Hz. reflexivity.
Defined.

(** *** The zero guard *)

Lemma slot_flops_guard (u : option ComputeUnit) (a : Arch) :
  sm_count a <= 0 \/ (0 <? freq a)%float = false -> slot_flops u a = Ok 0%float.
Proof.
  intros H. unfold slot_flops, Py.float_gt_0. destruct u as [u|]; [|reflexivity].
  destruct H as [H|H].
  - apply Z.ltb_ge in H. rewrite H. reflexivity.
  - rewrite H, andb_false_r. reflexivity.
Qed.

Lemma bandwidth_values_guard (a : Arch) :
  sm_count a <= 0 \/ (0 <? freq a)%float = false ->
  smem_bandwidth_value a = Ok 0%float /\ register_bandwidth_value a = Ok 0%float.
Proof.
  intros H. unfold smem_bandwidth_value, register_bandwidth_value, Py.float_gt_0.
  destruct H as [H|H].
  - apply Z.ltb_ge in H. rewrite H. split; reflexivity.
  - rewrite H, andb_false_r. split; reflexivity.
Qed.

(** X2. With [sm_count <= 0], or a frequency that is not above zero (zero,
    negative or NaN), [compute_metrics] returns, whatever the units and the
    other integers are, and all ten derived fields are [0.0]. *)
Theorem compute_metrics_zero_guard (a : Arch) :
  sm_count a <= 0 \/ (0 <? freq a)%float = false ->
  exists a', compute_metrics a = Ok a' /\
    forall x, is_derived x = true -> getattr a' x = Some (VFloat 0).
Proof.
  intros H. rewrite compute_metrics_eq. unfold eval_metrics.
  rewrite !(slot_flops_guard _ a H). cbn [bind].
  destruct (bandwidth_values_guard a H) as [-> ->]. cbn [bind].
  eexists. split; [reflexivity|].
  intros x Hx. destruct x; try discriminate Hx; reflexivity.
Qed.

Lemma compute_metrics_zero_guard_witness :
  exists a',
    compute_metrics (set_freq nan (set_sm_count (2 ^ 2000) example_tensor_arch)) = Ok a' /\
    getattr a' A_fp16_tensor_flops = Some (VFloat 0) /\
    getattr a' A_register_bandwidth = Some (VFloat 0).
Proof.
  destruct (compute_metrics_zero_guard
              (set_freq nan (set_sm_count (2 ^ 2000) example_tensor_arch))
              (or_intror eq_refl)) as (a' & Ha' & Hz).
  exists a'. split; [exact Ha'|]. split; apply Hz; reflexivity.
Defined.

(** *** The two passes are independent *)

Lemma raise_overflow_eq {A : Type} (e1 e2 : exn) :
  e1 = OverflowError -> e2 = OverflowError -> @Raise A e1 = Raise e2.
Proof. congruence. Qed.

Lemma passes_commute (a : Arch) :
  (a1 <- compute_flops a ;; compute_bandwidth a1)
  = (a1 <- compute_bandwidth a ;; compute_flops a1).
Proof.
  rewrite compute_bandwidth_eq, compute_flops_eq.
  assert (Hb : forall m, compute_bandwidth (store_flops m a)
    = (s <- smem_bandwidth_value a ;; r <- register_bandwidth_value a ;;
       Ok (set_register_bandwidth r (set_smem_bandwidth s (store_flops m a)))))
    by (intros m; rewrite compute_bandwidth_eq; reflexivity).
  assert (Hf : forall s r,
    compute_flops (set_register_bandwidth r (set_smem_bandwidth s a))
    = (v1 <- slot_flops (fp16_tensor_core_unit a) a ;;
       v2 <- slot_flops (fp8_tensor_core_unit a) a ;;
       v3 <- slot_flops (fp4_tensor_core_unit a) a ;;
       v4 <- slot_flops (fp32_cuda_core_unit a) a ;;
       v5 <- slot_flops (fp16_cuda_core_unit a) a ;;
       v6 <- slot_flops (fp64_cuda_core_unit a) a ;;
       v7 <- slot_flops (int32_cuda_core_unit a) a ;;
       v8 <- slot_flops (sfu_unit a) a ;;
       Ok (store_flops (mkMetrics v1 v2 v3 v4 v5 v6 v7 v8 0 0)
             (set_register_bandwidth r (set_smem_bandwidth s a)))))
    by (intros s r; rewrite compute_flops_eq; reflexivity).
  destruct (smem_bandwidth_value a) as [s|es] eqn:Es;
  destruct (register_bandwidth_value a) as [r|er] eqn:Er; cbn [bind];
  try rewrite Hf;
  repeat match goal with
  | |- context [bind (slot_flops ?u a) _] =>
      let E := fresh "E" in destruct (slot_flops u a) eqn:E; cbn [bind]
  end;
  try rewrite Hb; try rewrite Es; try rewrite Er; cbn [bind];
  try reflexivity;
  apply raise_overflow_eq;
  eauto using slot_flops_raises, smem_bandwidth_value_raises,
    register_bandwidth_value_raises.
Qed.

(** X3. The order of the two passes does not matter: running
    [compute_bandwidth] first and [compute_flops] second has the outcome of
    [compute_metrics], the same state or the same exception. *)
Theorem compute_metrics_order (a : Arch) :
  compute_metrics a = (a1 <- compute_bandwidth a ;; compute_flops a1).
Proof.
  rewrite <- passes_commute. unfold compute_metrics.
  destruct (compute_flops a) as [a1|e]; cbn [bind]; [|reflexivity].
  apply bind_ret.
Qed.

(** *** The derived values are a function of the inputs of the passes *)

Lemma value_of_unit_inj (u v : option ComputeUnit) :
  value_of_unit u = value_of_unit v -> u = v.
Proof. destruct u, v; simpl; congruence. Qed.

Lemma fmap_VUnit_inj (u v : option ComputeUnit) : VUnit <$> u = VUnit <$> v -> u = v.
Proof. destruct u, v; simpl; congruence. Qed.

Lemma eval_metrics_ext (a b : Arch) :
  sm_count a = sm_count b -> freq a = freq b ->
  l1_smem_throughput_per_cycle a = l1_smem_throughput_per_cycle b ->
  sm_sub_partitions a = sm_sub_partitions b ->
  fp16_tensor_core_unit a = fp16_tensor_core_unit b ->
  fp8_tensor_core_unit a = fp8_tensor_core_unit b ->
  fp4_tensor_core_unit a = fp4_tensor_core_unit b ->
  fp32_cuda_core_unit a = fp32_cuda_core_unit b ->
  fp16_cuda_core_unit a = fp16_cuda_core_unit b ->
  fp64_cuda_core_unit a = fp64_cuda_core_unit b ->
  int32_cuda_core_unit a = int32_cuda_core_unit b ->
  sfu_unit a = sfu_unit b ->
  eval_metrics a = eval_metrics b.
Proof.
  intros Hsm Hf Hl Hp H1 H2 H3 H4 H5 H6 H7 H8.
  unfold eval_metrics, slot_flops, smem_bandwidth_value, register_bandwidth_value,
    smem_bandwidth_expr, register_bandwidth_expr.
  rewrite Hsm, Hf, Hl, Hp, H1, H2, H3, H4, H5, H6, H7, H8. reflexivity.
Qed.

(** X4. The derived fields are a function of what the passes read: two
    instances that agree on [sm_count], [freq],
    [l1_smem_throughput_per_cycle], [sm_sub_partitions] and the eight unit
    slots get the same ten derived values from [compute_metrics], whatever
    their other attributes, the previous derived values among them. *)
Theorem derived_values_depend_on_inputs (a b a' : Arch) :
  (forall x, metric_input x = true -> getattr a x = getattr b x) ->
  compute_metrics a = Ok a' ->
  exists b', compute_metrics b = Ok b' /\
    forall x, is_derived x = true -> getattr b' x = getattr a' x.
Proof.
  intros Hin H. apply compute_metrics_inv in H. destruct H as (m & Hm & ->).
  assert (E : eval_metrics a = eval_metrics b).
  { apply eval_metrics_ext.
    - pose proof (Hin A_sm_count eq_refl) as E. cbn [getattr] in E. congruence.
    - pose proof (Hin A_freq eq_refl) as E. cbn [getattr] in E. congruence.
    - pose proof (Hin A_l1_smem_throughput_per_cycle eq_refl) as E.
      cbn [getattr] in E. congruence.
    - pose proof (Hin A_sm_sub_partitions eq_refl) as E. cbn [getattr] in E. congruence.
    - apply value_of_unit_inj. pose proof (Hin A_fp16_tensor_core_unit eq_refl) as E.
      cbn [getattr] in E. congruence.
    - apply fmap_VUnit_inj. exact (Hin A_fp8_tensor_core_unit eq_refl).
    - apply fmap_VUnit_inj. exact (Hin A_fp4_tensor_core_unit eq_refl).
    - apply value_of_unit_inj. pose proof (Hin A_fp32_cuda_core_unit eq_refl) as E.
      cbn [getattr] in E. congruence.
    - apply fmap_VUnit_inj. exact (Hin A_fp16_cuda_core_unit eq_refl).
    - apply fmap_VUnit_inj. exact (Hin A_fp64_cuda_core_unit eq_refl).
    - apply fmap_VUnit_inj. exact (Hin A_int32_cuda_core_unit eq_refl).
    - apply value_of_unit_inj. pose proof (Hin A_sfu_unit eq_refl) as E.
      cbn [getattr] in E. congruence. }
  exists (store_metrics m b). split.
  - rewrite compute_metrics_eq, <- E, Hm. reflexivity.
  - intros x Hx. destruct x; try discriminate Hx; reflexivity.
Qed.

Lemma derived_values_depend_on_inputs_witness :
  exists a' b',
    compute_metrics example_tensor_arch = Ok a' /\
    compute_metrics (set_ddr_bandwidth 1e12%float
                       (set_compute_max_util 0.5%float example_tensor_arch)) = Ok b' /\
    getattr b' A_fp16_tensor_flops = getattr a' A_fp16_tensor_flops.
Proof.
  assert (E : exists a', compute_metrics example_tensor_arch = Ok a')
    by (eexists; vm_compute; reflexivity).
  destruct E as [a' E].
  destruct (derived_values_depend_on_inputs example_tensor_arch
              (set_ddr_bandwidth 1e12%float
                 (set_compute_max_util 0.5%float example_tensor_arch)) a') as (b' & Hb & Hd).
  - intros x Hx. destruct x; try discriminate Hx; reflexivity.
  - exact E.
  - exists a', b'. split; [exact E|]. split; [exact Hb|]. apply Hd. reflexivity.
Defined.

(** ** calculate_flops and the shape *)

Lemma fold_left_mul_acc (l : list Z) (acc : Z) :
  fold_left Z.mul l acc = acc * fold_left Z.mul l 1.
Proof.
  revert acc. induction l as [|d l IH]; intros acc; simpl; [lia|].
  rewrite (IH (acc * d)), (IH (1 * d)). lia.
Qed.

Lemma prod_cons (d : Z) (l : list Z) : Py.prod (d :: l) = d * Py.prod l.
Proof. unfold Py.prod. simpl. rewrite fold_left_mul_acc. lia. Qed.

Lemma prod_Permutation (l l' : list Z) : Permutation l l' -> Py.prod l = Py.prod l'.
Proof.
  induction 1 as [|d l l' _ IH|d d' l|l l' l'' _ IH1 _ IH2].
  - reflexivity.
  - rewrite !prod_cons, IH. reflexivity.
  - rewrite !prod_cons. lia.
  - congruence.
Qed.

Lemma prod_remove_ones (l : list Z) : Py.prod (remove_ones l) = Py.prod l.
Proof.
  induction l as [|d l IH]; [reflexivity|]. unfold remove_ones in *. cbn [List.filter].
  destruct (Z.eqb_spec d 1) as [->|Hd]; cbn [negb].
  - rewrite prod_cons, IH. lia.
  - rewrite !prod_cons, IH. reflexivity.
Qed.

Lemma flops_factor_prod (u : ComputeUnit) (sm_count : Z) :
  flops_factor u sm_count
  = instances u * Py.prod (shape u) * ops_per_element u * sm_count.
Proof. unfold flops_factor, Py.prod. destruct (shape u); reflexivity. Qed.

Lemma calculate_flops_factor (u u' : ComputeUnit) (sm_count : Z) (freq_hz : float) :
  flops_factor u sm_count = flops_factor u' sm_count ->
  calculate_flops u sm_count freq_hz = calculate_flops u' sm_count freq_hz.
Proof. intros H. rewrite !calculate_flops_eq, H. reflexivity. Qed.

(** X5. [calculate_flops] sees the shape only through its product: two
    units with the same [instances] and [ops_per_element] whose shapes are
    permutations of each other once the entries equal to 1 are dropped (so
    [[]], [[1]] and a missing shape are alike, and [unit_type] and [dtype]
    play no part) give the same result for every [sm_count] and [freq_hz]. *)
Theorem calculate_flops_shape_invariant (u u' : ComputeUnit) :
  instances u = instances u' ->
  ops_per_element u = ops_per_element u' ->
  Permutation (remove_ones (shape u)) (remove_ones (shape u')) ->
  forall sm_count freq_hz,
    calculate_flops u sm_count freq_hz = calculate_flops u' sm_count freq_hz.
Proof.
  intros Hi Ho Hp sm_count freq_hz. apply calculate_flops_factor.
  rewrite !flops_factor_prod, Hi, Ho.
  rewrite <- (prod_remove_ones (shape u)), <- (prod_remove_ones (shape u')).
  rewrite (prod_Permutation _ _ Hp). reflexivity.
Qed.

Lemma calculate_flops_shape_invariant_witness :
  calculate_flops (ComputeUnit__init__ "vector" "fp32" 128 None 2) 132 1.83e9%float
  = calculate_flops (ComputeUnit__init__ "vector" "fp32" 128 (Some [1]) 2) 132 1.83e9%float
  /\
  calculate_flops (ComputeUnit__init__ "tensor" "fp16" 4 (Some [8; 4; 16]) 2) 132 1.83e9%float
  = calculate_flops (ComputeUnit__init__ "tensor" "fp8" 4 (Some [16; 1; 8; 4]) 2) 132 1.83e9%float.
Proof.
  split; apply calculate_flops_shape_invariant; try reflexivity.
  cbn. apply perm_trans with [8; 16; 4].
  - apply perm_skip, perm_swap.
  - apply perm_swap.
Defined.

(** ** calculate_flops outside the construction invariant *)

Lemma prod_In_0 (l : list Z) : In 0 l -> Py.prod l = 0.
Proof.
  induction l as [|d l IH]; [contradiction|]. rewrite prod_cons.
  intros [->|H]; [lia|]. rewrite (IH H). lia.
Qed.

Lemma flops_factor_0 (u : ComputeUnit) (sm_count : Z) :
  instances u = 0 \/ ops_per_element u = 0 \/ In 0 (shape u) ->
  flops_factor u sm_count = 0.
Proof.
  rewrite flops_factor_prod.
  intros [H|[H|H]]; [rewrite H|rewrite H|rewrite (prod_In_0 _ H)]; lia.
Qed.

Lemma float_gt_0_not_le (f : float) :
  (0 <? f)%float = true -> (f <=? 0)%float = false.
Proof.
  rewrite FloatAxioms.ltb_spec, FloatAxioms.leb_spec, Prim2SF_zero.
  destruct (Prim2SF f) as [s|[|]| |[|] m e]; cbn; congruence.
Qed.

(** Zero times a float above zero: [0.0] for a finite one, NaN for infinity. *)
Lemma zero_mul_pos (f : float) :
  (0 <? f)%float = true ->
  (Py.float_of_Z 0 * f)%float = if is_infinity f then nan else 0%float.
Proof.
  intros Hf. destruct (float_gt_0_cases f Hf) as [Hinf|(m & e & Hfin & _)].
  - assert (f = infinity) as -> by (apply Prim2SF_inj; rewrite Hinf; reflexivity).
    reflexivity.
  - assert (Hi : is_infinity f = false).
    { unfold is_infinity. rewrite FloatAxioms.eqb_spec, abs_spec, Hfin. reflexivity. }
    rewrite Hi. apply Prim2SF_inj.
    rewrite FloatAxioms.mul_spec, Prim2SF_float_of_Z, Hfin. reflexivity.
Qed.

(** X6. A unit outside the construction invariant with [instances = 0],
    [ops_per_element = 0] or a zero in its shape: with [sm_count > 0] and
    [freq_hz > 0], [calculate_flops] returns exactly [0.0] when the frequency
    is finite and NaN when it is infinite. *)
Theorem calculate_flops_zero_factor (u : ComputeUnit) (sm_count : Z) (freq_hz : float) :
  instances u = 0 \/ ops_per_element u = 0 \/ In 0 (shape u) ->
  0 < sm_count -> (0 <? freq_hz)%float = true ->
  calculate_flops u sm_count freq_hz
  = Ok (if is_infinity freq_hz then nan else 0%float).
Proof.
  intros Hu Hsm Hf. rewrite calculate_flops_eq.
  apply Z.leb_gt in Hsm. rewrite Hsm, (float_gt_0_not_le _ Hf). cbn [orb].
  rewrite (flops_factor_0 u sm_count Hu).
  unfold Py.int_mul_float, Py.int_to_float.
  change (Py.fits_double 0) with true. cbn [bind].
  rewrite (zero_mul_pos _ Hf). reflexivity.
Qed.

Lemma calculate_flops_zero_factor_witness :
  calculate_flops (ComputeUnit__init__ "tensor" "fp16" 4 (Some [8; 0; 16]) 2)
    132 1.83e9%float = Ok 0%float /\
  calculate_flops (ComputeUnit__init__ "tensor" "fp16" 4 (Some [8; 0; 16]) 2)
    132 infinity = Ok nan.
Proof.
  split.
  - apply (calculate_flops_zero_factor
             (ComputeUnit__init__ "tensor" "fp16" 4 (Some [8; 0; 16]) 2) 132 1.83e9%float).
    + right. right. simpl. auto.
    + lia.
    + reflexivity.
  - apply (calculate_flops_zero_factor
             (ComputeUnit__init__ "tensor" "fp16" 4 (Some [8; 0; 16]) 2) 132 infinity).
    + right. right. simpl. auto.
    + lia.
    + reflexivity.
Defined.

(** ** The overflow threshold of the integer factor *)

(** A valid finite binary64 number is below [2^1024]. *)
Lemma bounded_magnitude (m : positive) (e : Z) :
  bounded prec emax m e = true -> Z.log2 (Zpos m) + 1 + e <= 1024.
Proof.
  unfold bounded, canonical_mantissa. intros H. apply andb_prop in H.
  destruct H as [Hc He]. apply Z.eqb_eq in Hc. apply Z.leb_le in He.
  change (Zpos (digits2_pos m)) with (Zdigits2 (Zpos m)) in Hc.
  rewrite Zdigits2_log2, fexp_eq in Hc by lia.
  change (Z.sub emax prec) with 971 in He. lia.
Qed.

(** Rounding an integer never lowers its magnitude. *)
Lemma binary_round_magnitude (s : bool) (p : positive) :
  match binary_round prec emax s p 0 with
  | S754_finite _ m e => Z.log2 (Zpos p) + 1 <= Z.log2 (Zpos m) + 1 + e
  | _ => True
  end.
Proof.
  unfold binary_round.
  pose proof (shl_align_spec p 0 (SpecFloat.fexp prec emax (Zpos (digits2_pos p) + 0))) as Ha.
  destruct (shl_align p 0 _) as [mz ez]. destruct Ha as [_ Hlog].
  pose proof (binary_round_aux_cases s mz ez) as H. cbv zeta in H.
  destruct (binary_round_aux prec emax s (Zpos mz) ez loc_Exact) as [s'|s'| |s' m e];
    try exact I.
  destruct H as (_ & H & _). lia.
Qed.

(** An integer of magnitude [2^1024] or more has no double. *)
Lemma fits_double_large (z : Z) : 2 ^ 1024 <= Z.abs z -> Py.fits_double z = false.
Proof.
  intros Hz. unfold Py.fits_double.
  pose proof (Z2SF_cases z) as Hc.
  assert (Hm : match Py.Z2SF z with
               | S754_finite _ m e => Z.log2 (Z.abs z) + 1 <= Z.log2 (Zpos m) + 1 + e
               | _ => True
               end).
  { unfold Py.Z2SF, binary_normalize. destruct z as [|p|p]; [exact I| |].
    - exact (binary_round_magnitude false p).
    - exact (binary_round_magnitude true p). }
  destruct (Py.Z2SF z) as [s|s| |s m e]; try reflexivity.
  - destruct Hc as [-> _]. simpl in Hz. lia.
  - contradiction.
  - destruct Hc as (_ & _ & _ & Hb). apply bounded_magnitude in Hb.
    assert (1024 <= Z.log2 (Z.abs z)) by (apply Z.log2_le_pow2; lia).
    lia.
Qed.

(** X7. [calculate_flops] returns whenever the integer factor
    [instances * prod(shape) * ops_per_element * sm_count] is below [2^1023]
    in magnitude, and raises [OverflowError] whenever the guard passes and the
    factor is [2^1024] or more in magnitude. *)
Theorem calculate_flops_overflow_threshold (u : ComputeUnit) (sm_count : Z)
    (freq_hz : float) :
  (Z.abs (flops_factor u sm_count) < 2 ^ 1023 ->
   returns (calculate_flops u sm_count freq_hz)) /\
  (2 ^ 1024 <= Z.abs (flops_factor u sm_count) ->
   0 < sm_count -> (freq_hz <=? 0)%float = false ->
   calculate_flops u sm_count freq_hz = Raise OverflowError).
Proof.
  split.
  - intros H. rewrite calculate_flops_eq. destruct (_ || _); [apply returns_Ok|].
    unfold Py.int_mul_float. rewrite (int_to_float_fits _ (fits_double_small _ H)).
    apply returns_Ok.
  - intros H Hsm Hf. apply calculate_flops_overflow; [|exact (fits_double_large _ H)].
    apply Z.leb_gt in Hsm. rewrite Hsm, Hf. reflexivity.
Qed.

Lemma calculate_flops_overflow_threshold_witness :
  returns (calculate_flops (ComputeUnit__init__ "tensor" "fp16" 4 (Some [8; 4; 16]) 2)
             (2 ^ 1000) 1.83e9%float) /\
  calculate_flops (ComputeUnit__init__ "tensor" "fp16" 4 (Some [8; 4; 16]) 2)
    (2 ^ 1024) 1.83e9%float = Raise OverflowError.
Proof.
  split.
  - apply (proj1 (calculate_flops_overflow_threshold _ _ _)). vm_compute. reflexivity.
  - apply (proj2 (calculate_flops_overflow_threshold _ _ _)).
    + vm_compute. discriminate.
    + reflexivity.
    + vm_compute. reflexivity.
Defined.

(** ** H100_PCIE *)

Lemma eval_metrics_bandwidth (a : Arch) (m : metrics) :
  eval_metrics a = Ok m ->
  smem_bandwidth_value a = Ok (m_smem_bandwidth m) /\
  register_bandwidth_value a = Ok (m_register_bandwidth m).
Proof.
  unfold eval_metrics. intros H.
  do 8 (apply bind_inv in H; destruct H as (? & _ & H)).
  apply bind_inv in H. destruct H as (s & Hs & H).
  apply bind_inv in H. destruct H as (r & Hr & H).
  apply Ok_inj in H. subst m. auto.
Qed.

(** X8. In every mode of [H100_PCIE], [int8_flops] follows the state the
    method leaves: when a mode method returns, [fp16_tensor_flops] is
    [calculate_flops] of the FP16 tensor unit the instance then holds, at the
    [sm_count] and [freq] it then holds ([0.0] without a unit or with a guard
    that fails), and [int8_flops] is twice that value. *)
Theorem H100_PCIE_int8_flops (m : mode) (s s' : Arch) :
  call_mode V_H100_PCIE m s = Ok s' ->
  exists v,
    slot_flops (fp16_tensor_core_unit s') s' = Ok v /\
    fp16_tensor_flops s' = v /\
    int8_flops s' = Some (v * 2)%float.
Proof.
  destruct m; cbn [call_mode]; unfold_modes; intros H; mode_inv H; subst s';
    unfold eval_metrics in Hm; apply bind_inv in Hm; destruct Hm as (v & Hv & Hm);
    do 9 (apply bind_inv in Hm; destruct Hm as (? & _ & Hm));
    apply Ok_inj in Hm; subst mv;
    exists v; (split; [exact Hv|]); split; reflexivity.
Qed.

Lemma H100_PCIE_int8_flops_witness :
  exists s1 s2,
    call_mode V_H100_PCIE Microbench Arch__init__ = Ok s1 /\
    call_mode V_H100_PCIE Spec s1 = Ok s2 /\
    fp16_tensor_flops s2 = 663060480000000%float /\
    int8_flops s2 = Some 1326120960000000%float.
Proof.
  assert (E : exists s1 s2,
    call_mode V_H100_PCIE Microbench Arch__init__ = Ok s1 /\
    call_mode V_H100_PCIE Spec s1 = Ok s2 /\
    fp16_tensor_flops s2 = 663060480000000%float).
  { eexists. eexists. split; [vm_compute; reflexivity|].
    split; [vm_compute; reflexivity|]. vm_compute. reflexivity. }
  destruct E as (s1 & s2 & E1 & E2 & F). exists s1, s2.
  split; [exact E1|]. split; [exact E2|]. split; [exact F|].
  destruct (H100_PCIE_int8_flops Spec s1 s2 E2) as (v & _ & Hv & Hi).
  rewrite Hi, <- Hv, F. vm_compute. reflexivity.
Defined.

(** X9. [H100_PCIE.set_to_microbench] does not keep the shared-memory
    bandwidth it assigns ([20720.6e9]): the [compute_metrics] that follows
    overwrites it, so on return [smem_bandwidth] is
    [sm_count * 1.42e9 * l1_smem_throughput_per_cycle] of the instance (or
    [0.0] when one of the two integers is not positive). *)
Theorem H100_PCIE_microbench_smem_bandwidth (s s' : Arch) :
  H100_PCIE.set_to_microbench s = Ok s' ->
  freq s' = (1.42 * 1e9)%float /\
  smem_bandwidth s' =
    (if (0 <? sm_count s) && (0 <? l1_smem_throughput_per_cycle s)
     then (Py.float_of_Z (sm_count s) * (1.42 * 1e9)
           * Py.float_of_Z (l1_smem_throughput_per_cycle s))%float
     else 0%float).
Proof.
  unfold_modes. intros H. mode_inv H. subst s'. split; [reflexivity|].
  apply eval_metrics_bandwidth in Hm. destruct Hm as [Hs _].
  apply smem_bandwidth_value_inv in Hs.
  match type of Hs with
  | context [sm_count ?X] =>
      change (sm_count X) with (sm_count s) in Hs;
      change (l1_smem_throughput_per_cycle X) with (l1_smem_throughput_per_cycle s) in Hs;
      change (freq X) with (1.42 * 1e9)%float in Hs
  end.
  change (Py.float_gt_0 (1.42 * 1e9)) with true in Hs.
  rewrite andb_true_r in Hs. exact Hs.
Qed.

Lemma H100_PCIE_microbench_smem_bandwidth_witness :
  exists s',
    H100_PCIE.set_to_microbench
      (set_l1_smem_throughput_per_cycle 128 (set_sm_count 114 Arch__init__)) = Ok s' /\
    smem_bandwidth s' = 20720640000000%float /\
    smem_bandwidth s' <> (20720.6 * 1e9)%float.
Proof.
  assert (E : exists s', H100_PCIE.set_to_microbench
      (set_l1_smem_throughput_per_cycle 128 (set_sm_count 114 Arch__init__)) = Ok s')
    by (eexists; vm_compute; reflexivity).
  destruct E as [s' E]. exists s'. split; [exact E|].
  destruct (H100_PCIE_microbench_smem_bandwidth _ s' E) as [_ H].
  rewrite H. split; [vm_compute; reflexivity|].
  apply float_neq. vm_compute. reflexivity.
Defined.

Lemma bind_compute_metrics_not_attr (a : Arch) (k : Arch -> result Arch) (n : string) :
  (forall a', exists b, k a' = Ok b) ->
  bind (compute_metrics a) k <> Raise (AttributeError n).
Proof.
  intros Hk H. destruct (compute_metrics a) as [a'|e] eqn:E; cbn [bind] in H.
  - destruct (Hk a') as [b Hb]. congruence.
  - apply compute_metrics_raises in E. congruence.
Qed.

(** X10. [H100_PCIE.set_to_spec] raises [AttributeError] exactly on the
    instances that have no [max_freq] attribute; when it returns, the
    operating frequency is the [max_freq] the instance already had (never the
    [1.755e9] assigned first), [max_freq] is unchanged and [base_freq] is
    [1.42e9]. *)
Theorem H100_PCIE_set_to_spec_max_freq (s : Arch) :
  (max_freq s = None <-> H100_PCIE.set_to_spec s = Raise (AttributeError "max_freq")) /\
  (forall s', H100_PCIE.set_to_spec s = Ok s' ->
     max_freq s = Some (freq s') /\ max_freq s' = max_freq s /\
     base_freq s' = Some (1.42 * 1e9)%float).
Proof.
  split.
  - split; [apply H100_PCIE_spec_needs_max_freq|].
    destruct (max_freq s) as [f|] eqn:E; [|reflexivity].
    unfold H100_PCIE.set_to_spec. cbv zeta.
    match goal with
    | |- context [read_attr ?n ?o] => change o with (max_freq s)
    end.
    rewrite E. cbn [read_attr bind]. intros H. exfalso. revert H.
    apply bind_compute_metrics_not_attr. intros a'. eexists. reflexivity.
  - intros s'. unfold_modes. intros H. mode_inv H. subst s'.
    split; [exact Hf|]. split; reflexivity.
Qed.

Lemma H100_PCIE_set_to_spec_max_freq_witness :
  exists s', H100_PCIE.set_to_spec (set_max_freq (Some 1e9%float) Arch__init__) = Ok s' /\
    freq s' = 1e9%float.
Proof.
  assert (E : exists s',
    H100_PCIE.set_to_spec (set_max_freq (Some 1e9%float) Arch__init__) = Ok s')
    by (eexists; vm_compute; reflexivity).
  destruct E as [s' E]. exists s'. split; [exact E|].
  destruct (proj2 (H100_PCIE_set_to_spec_max_freq _) s' E) as (H & _).
  cbn in H. congruence.
Defined.

(** X11. On an instance without FP4 tensor cores, once
    [H100_PCIE.set_to_microbench] or [set_to_ncu] has returned,
    [set_to_spec] returns too, and it runs at the frequency of that mode
    ([1.42e9], respectively [1.06e9]) with the 114 SMs of the
    specification. *)
Theorem H100_PCIE_spec_after_mode (m : mode) (s s1 : Arch) :
  m <> Spec ->
  fp4_tensor_core_unit s = None ->
  call_mode V_H100_PCIE m s = Ok s1 ->
  exists s2, H100_PCIE.set_to_spec s1 = Ok s2 /\
    freq s2 = H100_PCIE_mode_freq m /\ sm_count s2 = 114.
Proof.
  intros Hm H4 H. destruct m; [congruence| |];
    cbn [call_mode] in H; unfold_modes_in H; mode_inv H; subst s1;
    unfold H100_PCIE.set_to_spec; cbv zeta;
    (match goal with
     | |- context [read_attr ?n ?o] =>
         first [ change o with (Some (1.42 * 1e9)%float)
               | change o with (Some (1.06 * 1e9)%float) ]
     end);
    cbn [read_attr bind];
    (match goal with
     | |- context [bind (compute_metrics ?Y) _] =>
         let E := fresh "E" in
         assert (E : returns (compute_metrics Y));
         [ apply compute_metrics_returns; repeat split; try (vm_compute; reflexivity);
           match goal with
           | |- unit_fits ?o _ =>
               change o with (fp4_tensor_core_unit s); rewrite H4; exact I
           end
         | destruct E as [a2 E]; apply compute_metrics_inv in E as E';
           destruct E' as (m2 & _ & ->); rewrite E; cbn [bind];
           eexists; split; [reflexivity|]; split; reflexivity ]
     end).
Qed.

Lemma H100_PCIE_spec_after_mode_witness :
  exists s1 s2,
    call_mode V_H100_PCIE Microbench Arch__init__ = Ok s1 /\
    H100_PCIE.set_to_spec s1 = Ok s2 /\ freq s2 = (1.42 * 1e9)%float.
Proof.
  assert (E : exists s1, call_mode V_H100_PCIE Microbench Arch__init__ = Ok s1)
    by (eexists; vm_compute; reflexivity).
  destruct E as [s1 E].
  destruct (H100_PCIE_spec_after_mode Microbench Arch__init__ s1
              ltac:(discriminate) eq_refl E) as (s2 & H2 & Hf & _).
  exists s1, s2. auto.
Defined.

(** ** The states an instance goes through *)

(** X12. [set_to_ncu] of the three architectures assigns the frequency, the
    four utilization ceilings and the derived fields ([H100_PCIE] also
    [base_freq], [max_freq] and [int8_flops]) and nothing else: the DRAM and
    L2 bandwidths, the capacities, the partition counts and the unit slots
    keep their values. *)
Theorem ncu_frame (v : variant) (s s' : Arch) :
  call_mode v Ncu s = Ok s' ->
  forall x, ncu_assigns v x = false -> getattr s' x = getattr s x.
Proof.
  destruct v; cbn [call_mode]; unfold_modes; intros H; mode_inv H; subst s';
    intros x Hx; destruct x; try discriminate Hx; reflexivity.
Qed.

Lemma ncu_frame_witness :
  exists s s',
    construct V_MI250X = Ok s /\ call_mode V_MI250X Ncu s = Ok s' /\
    getattr s' A_ddr_bandwidth = getattr s A_ddr_bandwidth /\
    getattr s' A_fp16_tensor_core_unit = getattr s A_fp16_tensor_core_unit.
Proof.
  assert (E : exists s s', construct V_MI250X = Ok s /\ call_mode V_MI250X Ncu s = Ok s').
  { eexists. eexists. split; [vm_compute; reflexivity|].
    vm_compute. reflexivity. }
  destruct E as (s & s' & E0 & E1). exists s, s'.
  split; [exact E0|]. split; [exact E1|].
  split; apply (ncu_frame V_MI250X s s' E1); reflexivity.
Defined.

Lemma mode_keeps_config (v : variant) (m : mode) (s s' : Arch) :
  m <> Spec -> call_mode v m s = Ok s' ->
  forall x, config_or_slot x = true -> getattr s' x = getattr s x.
Proof.
  intros Hm. destruct m; [congruence| |]; destruct v; cbn [call_mode]; unfold_modes;
    intros H; mode_inv H; subst s'; intros x Hx; destruct x; try discriminate Hx;
    reflexivity.
Qed.

Lemma mode_keeps_absent (v : variant) (m : mode) (s s' : Arch) :
  v <> V_H100_PCIE -> call_mode v m s = Ok s' ->
  forall x, never_assigned v x = true -> getattr s' x = getattr s x.
Proof.
  intros Hv. destruct v; [congruence| |]; destruct m; cbn [call_mode]; unfold_modes;
    intros H; mode_inv H; subst s'; intros x Hx; destruct x; try discriminate Hx;
    reflexivity.
Qed.

Lemma fmap_None {A B : Type} (f : A -> B) (o : option A) : f <$> o = None -> o = None.
Proof. destruct o; [discriminate|reflexivity]. Qed.

(** [set_to_spec] of [H100_SXM] and [MI250X] depends on the instance only
    through the attributes it never assigns. *)
Lemma spec_reset (v : variant) (s : Arch) :
  v <> V_H100_PCIE ->
  (forall x, never_assigned v x = true -> getattr s x = None) ->
  call_mode v Spec s = construct v.
Proof.
  intros Hv Hn.
  pose proof (fmap_None _ _ (Hn A_fp4_tensor_core_unit eq_refl)) as H4.
  pose proof (fmap_None _ _ (Hn A_int32_cuda_core_unit eq_refl)) as H32.
  pose proof (fmap_None _ _ (Hn A_warp_schedulers_per_sm eq_refl)) as Hw.
  pose proof (fmap_None _ _ (Hn A_base_freq eq_refl)) as Hb.
  pose proof (fmap_None _ _ (Hn A_max_freq eq_refl)) as Hx.
  pose proof (fmap_None _ _ (Hn A_int8_flops eq_refl)) as Hi.
  destruct v; [congruence| |]; cbn [call_mode construct];
    unfold H100_SXM.__init__, MI250X.__init__; cbv zeta; rewrite bind_ret.
  - transitivity
      (H100_SXM.set_to_spec
         (set_fp4_tensor_core_unit (fp4_tensor_core_unit s)
         (set_int32_cuda_core_unit (int32_cuda_core_unit s)
         (set_warp_schedulers_per_sm (warp_schedulers_per_sm s)
         (set_base_freq (base_freq s) (set_max_freq (max_freq s)
         (set_int8_flops (int8_flops s) Arch__init__))))))).
    + unfold_modes. rewrite !bind_ret, !compute_metrics_eq. reflexivity.
    + rewrite H4, H32, Hw, Hb, Hx, Hi. reflexivity.
  - pose proof (fmap_None _ _ (Hn A_fp8_tensor_core_unit eq_refl)) as H8.
    transitivity
      (MI250X.set_to_spec
         (set_fp8_tensor_core_unit (fp8_tensor_core_unit s)
         (set_fp4_tensor_core_unit (fp4_tensor_core_unit s)
         (set_int32_cuda_core_unit (int32_cuda_core_unit s)
         (set_warp_schedulers_per_sm (warp_schedulers_per_sm s)
         (set_base_freq (base_freq s) (set_max_freq (max_freq s)
         (set_int8_flops (int8_flops s) Arch__init__)))))))).
    + unfold_modes. rewrite !bind_ret, !compute_metrics_eq. reflexivity.
    + rewrite H8, H4, H32, Hw, Hb, Hx, Hi. reflexivity.
Qed.

Lemma reachable_not_H100_PCIE (s : Arch) : reachable V_H100_PCIE s -> False.
Proof.
  induction 1 as [s H | s s' m _ IH _]; [|exact IH].
  cbn [construct] in H. unfold H100_PCIE.__init__ in H. cbv zeta in H.
  rewrite bind_ret in H. vm_compute in H. discriminate H.
Qed.

Lemma construct_absent (v : variant) (s : Arch) :
  construct v = Ok s ->
  forall x, never_assigned v x = true -> getattr s x = None.
Proof.
  intros H. destruct v; vm_compute in H; [discriminate H| |];
    apply Ok_inj in H; subst s; intros x Hx; destruct x; try discriminate Hx;
    reflexivity.
Qed.

Lemma reachable_absent (v : variant) (s : Arch) :
  reachable v s ->
  forall x, never_assigned v x = true -> getattr s x = None.
Proof.
  induction 1 as [s H | s s' m Hr IH Hm].
  - exact (construct_absent v s H).
  - intros x Hx. rewrite <- (IH x Hx).
    apply (mode_keeps_absent v m s s'); [|exact Hm|exact Hx].
    intros ->. exact (reachable_not_H100_PCIE s Hr).
Qed.

Lemma reachable_spec (v : variant) (s : Arch) :
  reachable v s -> call_mode v Spec s = construct v.
Proof.
  intros Hr. apply spec_reset; [|exact (reachable_absent v s Hr)].
  intros ->. exact (reachable_not_H100_PCIE s Hr).
Qed.

(** X13. Whatever sequence of mode calls an [H100_SXM] or [MI250X] instance
    has gone through since its construction, [set_to_spec] puts it back in
    the state the constructor produced: no measurement of another mode
    survives it. *)
Theorem set_to_spec_restores_constructed (v : variant) (s : Arch) :
  reachable v s ->
  exists c, construct v = Ok c /\ call_mode v Spec s = Ok c.
Proof.
  intros Hr. rewrite (reachable_spec v s Hr).
  destruct (construct_returns v) as [c Hc]; [|exists c; auto].
  intros ->. exact (reachable_not_H100_PCIE s Hr).
Qed.

Lemma set_to_spec_restores_constructed_witness :
  exists c s1 s2,
    construct V_MI250X = Ok c /\
    call_mode V_MI250X Microbench c = Ok s1 /\
    call_mode V_MI250X Ncu s1 = Ok s2 /\
    s2 <> c /\
    call_mode V_MI250X Spec s2 = Ok c.
Proof.
  assert (E : exists c s1 s2, construct V_MI250X = Ok c /\
            call_mode V_MI250X Microbench c = Ok s1 /\
            call_mode V_MI250X Ncu s1 = Ok s2 /\ freq s2 <> freq c).
  { eexists. eexists. eexists. split; [vm_compute; reflexivity|].
    split; [vm_compute; reflexivity|]. split; [vm_compute; reflexivity|].
    apply float_neq. vm_compute. reflexivity. }
  destruct E as (c & s1 & s2 & Hc & H1 & H2 & Hn).
  exists c, s1, s2. split; [exact Hc|]. split; [exact H1|]. split; [exact H2|].
  split; [intros ->; apply Hn; reflexivity|].
  destruct (set_to_spec_restores_constructed V_MI250X s2) as (c' & Hc' & Hs).
  - apply (reach_mode _ s1 s2 Ncu); [|exact H2].
    apply (reach_mode _ c s1 Microbench); [|exact H1].
    apply reach_construct. exact Hc.
  - rewrite Hs. rewrite Hc in Hc'. exact (eq_sym Hc').
Defined.

(** The configuration of every reachable state is the one the constructor
    left. *)
Lemma reachable_config (v : variant) (s : Arch) :
  reachable v s ->
  exists c, construct v = Ok c /\
    forall x, config_or_slot x = true -> getattr s x = getattr c x.
Proof.
  induction 1 as [s H | s s' m Hr (c & Hc & IH) Hm].
  - exists s. auto.
  - exists c. split; [exact Hc|]. destruct m.
    + rewrite (reachable_spec v s Hr), Hc in Hm. apply Ok_inj in Hm. subst s'.
      reflexivity.
    + intros x Hx. rewrite <- (IH x Hx).
      apply (mode_keeps_config v Microbench s s'); [discriminate|exact Hm|exact Hx].
    + intros x Hx. rewrite <- (IH x Hx).
      apply (mode_keeps_config v Ncu s s'); [discriminate|exact Hm|exact Hx].
Qed.

Lemma VInt_inj (a b : Z) : Some (VInt a) = Some (VInt b) -> a = b.
Proof. congruence. Qed.

Lemma metrics_defined_ext (a b : Arch) :
  (forall x, config_or_slot x = true -> getattr a x = getattr b x) ->
  metrics_defined b -> metrics_defined a.
Proof.
  intros H.
  pose proof (VInt_inj _ _ (H A_sm_count eq_refl)) as Hn.
  pose proof (VInt_inj _ _ (H A_l1_smem_throughput_per_cycle eq_refl)) as Hl.
  pose proof (VInt_inj _ _ (H A_sm_sub_partitions eq_refl)) as Hp.
  assert (H1 : fp16_tensor_core_unit a = fp16_tensor_core_unit b).
  { apply value_of_unit_inj. pose proof (H A_fp16_tensor_core_unit eq_refl) as E.
    cbn [getattr] in E. congruence. }
  pose proof (fmap_VUnit_inj _ _ (H A_fp8_tensor_core_unit eq_refl)) as H2.
  pose proof (fmap_VUnit_inj _ _ (H A_fp4_tensor_core_unit eq_refl)) as H3.
  assert (H4 : fp32_cuda_core_unit a = fp32_cuda_core_unit b).
  { apply value_of_unit_inj. pose proof (H A_fp32_cuda_core_unit eq_refl) as E.
    cbn [getattr] in E. congruence. }
  pose proof (fmap_VUnit_inj _ _ (H A_fp16_cuda_core_unit eq_refl)) as H5.
  pose proof (fmap_VUnit_inj _ _ (H A_fp64_cuda_core_unit eq_refl)) as H6.
  pose proof (fmap_VUnit_inj _ _ (H A_int32_cuda_core_unit eq_refl)) as H7.
  assert (H8 : sfu_unit a = sfu_unit b).
  { apply value_of_unit_inj. pose proof (H A_sfu_unit eq_refl) as E.
    cbn [getattr] in E. congruence. }
  unfold metrics_defined.
  rewrite Hn, Hl, Hp, H1, H2, H3, H4, H5, H6, H7, H8. exact (fun x => x).
Qed.

Lemma construct_defined (v : variant) (c : Arch) :
  construct v = Ok c -> metrics_defined c.
Proof.
  intros H. destruct v; vm_compute in H; [discriminate H| |];
    apply Ok_inj in H; subst c; repeat split.
Qed.

(** X14. No mode method of [H100_SXM] or [MI250X] raises on a state that the
    instance can be in: after the constructor and any sequence of mode calls,
    [set_to_spec], [set_to_microbench] and [set_to_ncu] all return. *)
Theorem reachable_mode_returns (v : variant) (m : mode) (s : Arch) :
  reachable v s -> returns (call_mode v m s).
Proof.
  intros Hr. destruct (reachable_config v s Hr) as (c & Hc & Hcfg).
  pose proof (construct_defined v c Hc) as Hd.
  destruct m.
  - rewrite (reachable_spec v s Hr). exists c. exact Hc.
  - destruct v; [destruct (reachable_not_H100_PCIE s Hr)| |];
      cbn [call_mode]; unfold_modes; apply returns_Ok.
  - destruct v; [destruct (reachable_not_H100_PCIE s Hr)| |];
      cbn [call_mode]; unfold_modes;
      (apply returns_bind; [|intros; apply returns_Ok]);
      apply compute_metrics_returns;
      apply (metrics_defined_ext _ c); [|exact Hd| |exact Hd];
      intros x Hx; rewrite <- (Hcfg x Hx); destruct x; try discriminate Hx;
      reflexivity.
Qed.

Lemma reachable_mode_returns_witness :
  exists c s1,
    construct V_H100_SXM = Ok c /\
    call_mode V_H100_SXM Ncu c = Ok s1 /\
    returns (call_mode V_H100_SXM Microbench s1) /\
    returns (call_mode V_H100_SXM Ncu s1).
Proof.
  assert (E : exists c s1, construct V_H100_SXM = Ok c /\
            call_mode V_H100_SXM Ncu c = Ok s1).
  { eexists. eexists. split; [vm_compute; reflexivity|].
    vm_compute. reflexivity. }
  destruct E as (c & s1 & Hc & H1). exists c, s1.
  split; [exact Hc|]. split; [exact H1|].
  assert (Hr : reachable V_H100_SXM s1).
  { apply (reach_mode _ c s1 Ncu); [|exact H1]. apply reach_construct. exact Hc. }
  split; apply reachable_mode_returns; exact Hr.
Defined.

(** X15. Every state of an [H100_SXM] instance has its derived fields in
    step with its inputs: running [compute_metrics] on it would change none
    of the eight FLOPs fields and neither bandwidth. *)
Theorem H100_SXM_reachable_current (s : Arch) :
  reachable V_H100_SXM s -> metrics_current s.
Proof.
  induction 1 as [s H | s s' m Hr IH Hm].
  - cbn [construct] in H. unfold H100_SXM.__init__ in H. cbv zeta in H.
    rewrite bind_ret in H.
    exact (runs_metrics_current V_H100_SXM Spec _ s eq_refl H).
  - destruct m.
    + exact (runs_metrics_current V_H100_SXM Spec s s' eq_refl Hm).
    + cbn [call_mode] in Hm. unfold H100_SXM.set_to_microbench in Hm.
      apply Ok_inj in Hm. subst s'. exact IH.
    + exact (runs_metrics_current V_H100_SXM Ncu s s' eq_refl Hm).
Qed.

Lemma H100_SXM_reachable_current_witness :
  exists c s1 s2,
    construct V_H100_SXM = Ok c /\
    call_mode V_H100_SXM Ncu c = Ok s1 /\
    call_mode V_H100_SXM Microbench s1 = Ok s2 /\
    metrics_current s2.
Proof.
  assert (E : exists c s1 s2, construct V_H100_SXM = Ok c /\
            call_mode V_H100_SXM Ncu c = Ok s1 /\
            call_mode V_H100_SXM Microbench s1 = Ok s2).
  { eexists. eexists. eexists. split; [vm_compute; reflexivity|].
    split; [vm_compute; reflexivity|]. vm_compute. reflexivity. }
  destruct E as (c & s1 & s2 & Hc & H1 & H2). exists c, s1, s2.
  split; [exact Hc|]. split; [exact H1|]. split; [exact H2|].
  apply H100_SXM_reachable_current.
  apply (reach_mode _ s1 s2 Microbench); [|exact H2].
  apply (reach_mode _ c s1 Ncu); [|exact H1].
  apply reach_construct. exact Hc.
Defined.

(** X16. The four utilization ceilings of an instance move together: in every
    state after construction they are all [0.9] (specification and NCU
    modes) or all [1.0] (micro-benchmark mode). *)
Theorem reachable_ceilings (v : variant) (s : Arch) :
  reachable v s ->
  ceilings s = [0.9; 0.9; 0.9; 0.9]%float \/ ceilings s = [1.0; 1.0; 1.0; 1.0]%float.
Proof.
  induction 1 as [s H | s s' m Hr IH Hm].
  - destruct v; vm_compute in H; [discriminate H| |];
      apply Ok_inj in H; subst s; left; reflexivity.
  - destruct v; [destruct (reachable_not_H100_PCIE s Hr)| |]; destruct m;
      cbn [call_mode] in Hm; unfold_modes_in Hm; mode_inv Hm; subst s';
      first [ exact IH | left; reflexivity | right; reflexivity ].
Qed.

Lemma reachable_ceilings_witness :
  exists c s1,
    construct V_MI250X = Ok c /\ call_mode V_MI250X Microbench c = Ok s1 /\
    (ceilings s1 = [0.9; 0.9; 0.9; 0.9]%float \/
     ceilings s1 = [1.0; 1.0; 1.0; 1.0]%float).
Proof.
  assert (E : exists c s1, construct V_MI250X = Ok c /\
            call_mode V_MI250X Microbench c = Ok s1).
  { eexists. eexists. split; [vm_compute; reflexivity|].
    vm_compute. reflexivity. }
  destruct E as (c & s1 & Hc & H1). exists c, s1.
  split; [exact Hc|]. split; [exact H1|].
  apply (reachable_ceilings V_MI250X).
  apply (reach_mode _ c s1 Microbench); [|exact H1]. apply reach_construct. exact Hc.
Defined.

(** X17. An [H100_SXM] instance has exactly two states: the one its
    constructor leaves (specification mode, [1.83e9] Hz) and the one
    [set_to_ncu] leads to from there ([1.44e9] Hz).  From either of them
    [set_to_spec] leads to the first, [set_to_ncu] to the second, and
    [set_to_microbench] changes nothing, so the instance never carries
    micro-benchmark data. *)
Theorem H100_SXM_two_states (s : Arch) :
  reachable V_H100_SXM s ->
  exists c n,
    construct V_H100_SXM = Ok c /\ call_mode V_H100_SXM Ncu c = Ok n /\
    freq c = (1.83 * 1e9)%float /\ freq n = (1.44 * 1e9)%float /\ c <> n /\
    (s = c \/ s = n) /\
    call_mode V_H100_SXM Spec s = Ok c /\
    call_mode V_H100_SXM Microbench s = Ok s /\
    call_mode V_H100_SXM Ncu s = Ok n.
Proof.
  intros Hr.
  destruct (construct_returns V_H100_SXM) as [c Hc]; [discriminate|].
  destruct (constructed_mode_returns V_H100_SXM Ncu c Hc) as [n Hn].
  assert (Fc : freq c = (1.83 * 1e9)%float).
  { clear Hn Hr. vm_compute in Hc. apply Ok_inj in Hc. subst c. reflexivity. }
  assert (Fn : freq n = (1.44 * 1e9)%float).
  { clear Hr Fc. cbn [call_mode] in Hn. unfold_modes_in Hn. mode_inv Hn. subst n.
    reflexivity. }
  assert (Hs : s = c \/ s = n).
  { clear Fc Fn. induction Hr as [s H | s s' m Hr IH Hm].
    - left. rewrite Hc in H. apply Ok_inj in H. exact (eq_sym H).
    - destruct m.
      + left. rewrite (reachable_spec V_H100_SXM s Hr), Hc in Hm.
        apply Ok_inj in Hm. exact (eq_sym Hm).
      + cbn [call_mode] in Hm. unfold H100_SXM.set_to_microbench in Hm.
        apply Ok_inj in Hm. subst s'. exact IH.
      + right. destruct IH as [-> | ->].
        * rewrite Hn in Hm. apply Ok_inj in Hm. exact (eq_sym Hm).
        * rewrite (mode_twice V_H100_SXM Ncu c n Hn) in Hm.
          apply Ok_inj in Hm. exact (eq_sym Hm). }
  exists c, n. split; [exact Hc|]. split; [exact Hn|].
  split; [exact Fc|]. split; [exact Fn|]. split.
  { intros E. rewrite E, Fn in Fc. revert Fc. apply float_neq.
    vm_compute. reflexivity. }
  split; [exact Hs|]. split.
  { rewrite (reachable_spec V_H100_SXM s Hr). exact Hc. }
  split; [reflexivity|].
  destruct Hs as [-> | ->]; [exact Hn | exact (mode_twice V_H100_SXM Ncu c n Hn)].
Qed.

Lemma H100_SXM_two_states_witness :
  exists c n,
    construct V_H100_SXM = Ok c /\ call_mode V_H100_SXM Ncu c = Ok n /\
    c <> n /\
    call_mode V_H100_SXM Microbench n = Ok n /\
    call_mode V_H100_SXM Ncu n = Ok n /\
    call_mode V_H100_SXM Spec n = Ok c.
Proof.
  assert (E : exists c n, construct V_H100_SXM = Ok c /\
            call_mode V_H100_SXM Ncu c = Ok n).
  { eexists. eexists. split; [vm_compute; reflexivity|]. vm_compute. reflexivity. }
  destruct E as (c & n & Hc & Hn). exists c, n.
  split; [exact Hc|]. split; [exact Hn|].
  destruct (H100_SXM_two_states n)
    as (c' & n' & Hc' & Hn' & _ & _ & Hne & _ & Hspec & Hmb & Hncu).
  - apply (reach_mode _ c n Ncu); [|exact Hn]. apply reach_construct. exact Hc.
  - rewrite Hc in Hc'. apply Ok_inj in Hc'. subst c'.
    rewrite Hn in Hn'. apply Ok_inj in Hn'. subst n'.
    split; [exact Hne|]. split; [exact Hmb|]. split; [exact Hncu | exact Hspec].
Defined.

(** ** utils/device_factory.py *)

(** X18. Among the classes of this tree, [create_device_arch] yields an
    instance for two device names only, ["NVIDIA H100 80GB HBM3"] and
    ["AMD INSTINCT MI250X"]; the instance is the one the class constructor
    leaves, and every mode method returns on it. *)
Theorem create_device_arch_instance (nvl a100 : result Arch) (name : string) (a : Arch) :
  name <> "NVIDIA H100 NVL" -> name <> "NVIDIA A100-SXM4-80GB" ->
  create_device_arch nvl a100 name = Ok a ->
  ((name = "NVIDIA H100 80GB HBM3" /\ construct V_H100_SXM = Ok a /\
    forall m, returns (call_mode V_H100_SXM m a)) \/
   (name = "AMD INSTINCT MI250X" /\ construct V_MI250X = Ok a /\
    forall m, returns (call_mode V_MI250X m a))).
Proof.
  intros Hnvl Ha100 H.
  destruct (DEVICE_ARCH_MAP !! name) as [c|] eqn:E.
  - rewrite (create_device_arch_mapped nvl a100 name c E) in H.
    apply DEVICE_ARCH_MAP_lookup in E.
    destruct E as [[-> ->]|[[-> ->]|[[-> ->]|[[-> ->]|[-> ->]]]]];
      try congruence; cbn [instantiate] in H.
    + vm_compute in H. discriminate H.
    + left. split; [reflexivity|]. split; [exact H|].
      intros m. exact (constructed_mode_returns V_H100_SXM m a H).
    + right. split; [reflexivity|]. split; [exact H|].
      intros m. exact (constructed_mode_returns V_MI250X m a H).
  - rewrite (create_device_arch_unmapped nvl a100 name E) in H. discriminate H.
Qed.

Lemma create_device_arch_instance_witness :
  exists a,
    create_device_arch (Raise (NotImplementedError "H100_NVL"))
      (Raise (NotImplementedError "A100_SXM"))
      "AMD INSTINCT MI250X" = Ok a /\
    construct V_MI250X = Ok a /\
    returns (call_mode V_MI250X Microbench a).
Proof.
  assert (E : exists a,
    create_device_arch (Raise (NotImplementedError "H100_NVL"))
      (Raise (NotImplementedError "A100_SXM"))
      "AMD INSTINCT MI250X" = Ok a) by (eexists; vm_compute; reflexivity).
  destruct E as [a E]. exists a. split; [exact E|].
  destruct (create_device_arch_instance _ _ "AMD INSTINCT MI250X" a
              ltac:(discriminate) ltac:(discriminate) E)
    as [(Hn & _) | (_ & Hc & Hm)]; [discriminate Hn|].
  split; [exact Hc | exact (Hm Microbench)].
Defined.

(** ** Exceptions of the mode methods *)

Lemma bind_compute_metrics_raise (a : Arch) (k : Arch -> result Arch) (e : exn) :
  (forall a', exists b, k a' = Ok b) ->
  bind (compute_metrics a) k = Raise e -> e = OverflowError.
Proof.
  intros Hk H. destruct (compute_metrics a) as [a'|e'] eqn:E; cbn [bind] in H.
  - destruct (Hk a') as [b Hb]. congruence.
  - apply compute_metrics_raises in E. congruence.
Qed.

(** X19. A mode method of the three architectures can fail in two ways only:
    with [OverflowError], when a unit's integer factors are beyond the
    doubles, and, for [H100_PCIE.set_to_spec] alone, with [AttributeError] on
    an instance without [max_freq].  In particular none of them reaches the
    [NotImplementedError] of the base class. *)
Theorem mode_raises_only (v : variant) (m : mode) (s : Arch) (e : exn) :
  call_mode v m s = Raise e ->
  e = OverflowError \/
  (v = V_H100_PCIE /\ m = Spec /\ max_freq s = None /\ e = AttributeError "max_freq").
Proof.
  destruct v, m; cbn [call_mode]; unfold_modes; intros H; try discriminate H.
  all: try (left; revert H; apply bind_compute_metrics_raise;
            intros a'; eexists; reflexivity).
  match type of H with
  | context [read_attr ?n ?o] => change o with (max_freq s) in H
  end.
  destruct (max_freq s) as [f|] eqn:E; cbn [read_attr bind] in H.
  - left. revert H. apply bind_compute_metrics_raise. intros a'. eexists. reflexivity.
  - right. injection H as <-. auto.
Qed.

Lemma mode_raises_only_witness :
  exists e,
    call_mode V_H100_SXM Spec
      (set_fp4_tensor_core_unit
         (Some (ComputeUnit__init__ "tensor" "fp4" (2 ^ 1100) None 2)) Arch__init__)
    = Raise e /\ e = OverflowError.
Proof.
  assert (E : exists e,
    call_mode V_H100_SXM Spec
      (set_fp4_tensor_core_unit
         (Some (ComputeUnit__init__ "tensor" "fp4" (2 ^ 1100) None 2)) Arch__init__)
    = Raise e) by (eexists; vm_compute; reflexivity).
  destruct E as [e E]. exists e. split; [exact E|].
  destruct (mode_raises_only _ _ _ _ E) as [H | (H & _)]; [exact H | discriminate H].
Defined.
